(** * Behavioral telemetry and trust-policy client: a shallow embedding

    The development follows the JavaScript sources of the client:
    - [Capture]    : frontend/src/hooks/useBehavioralCapture.js
    - [Auth]       : the AuthProvider context (login, logout)
    - [Dashboard]  : the Dashboard component with the policy reactor
                     (applyPolicy, handleTerminate, the poller, the
                     step-up modal's handlers)
    - [DashboardV1]: frontend/src/components/Dashboard.jsx
    - [TrustScoreCard], [LegacyDashboard] : what is shown for a score
    - [Base64]     : base64ToArrayBuffer / arrayBufferToBase64 of the
                     API service module, over the platform's atob/btoa
    - [App]        : the capture hook as used by the Dashboard.

    Asynchronous functions are cut at their [await]: the part that runs
    synchronously, and the continuation applied to the outcome of the
    awaited promise.  The clock ([Date.now()]) is an explicit argument.
    A function created by a React render sees the state of that render;
    the functions of the Dashboard therefore take the render they belong
    to as an argument. *)

From Stdlib Require Import ZArith NArith QArith Qround List String Ascii Bool Lia.
From Stdlib Require Import DecimalString Sorted.
From Stdlib.Strings Require Import Byte.
Import ListNotations.

Local Open Scope Z_scope.

(** ** JavaScript values *)

Module JS.

(** A property that may be absent ([undefined]), [null], or hold a value. *)
Inductive value (A : Type) : Type :=
| undefined
| null
| def (a : A).
Arguments undefined {A}.
Arguments null {A}.
Arguments def {A} a.

(** [v ?? d] *)
Definition nullish {A} (v d : value A) : value A :=
  match v with
  | def a => def a
  | _ => d
  end.

(** Truthiness of a string-or-nothing ([!token]): the empty string,
    [null] and [undefined] are falsy. *)
Definition truthy_string (v : value string) : bool :=
  match v with
  | def s => negb (String.eqb s "")
  | _ => false
  end.

(** Truthiness of a boolean-or-nothing. *)
Definition truthy_bool (v : value bool) : bool :=
  match v with
  | def b => b
  | _ => false
  end.

(** [v === s] for a string literal [s]. *)
Definition is_string (v : value string) (s : string) : bool :=
  match v with
  | def x => String.eqb x s
  | _ => false
  end.

(** [Math.round] on a finite number: the nearest integer, ties going
    towards +infinity. *)
Definition Math_round (x : Q) : Z := Qfloor (x + (1 # 2)).

(** The text of an integer in a template literal. *)
Definition show_Z (z : Z) : string := NilZero.string_of_int (Z.to_int z).

(** [`${Math.round(v)}`]: [undefined] rounds to NaN, [null] to 0. *)
Definition show_rounded (v : value Q) : string :=
  match v with
  | undefined => "NaN"
  | null => "0"
  | def q => show_Z (Math_round q)
  end.

(** What [catch] receives. *)
Record Error := mkError { name : string; message : string }.

(** Outcome of an awaited promise. *)
Inductive outcome (A : Type) : Type :=
| resolved (a : A)
| rejected (e : Error).
Arguments resolved {A} a.
Arguments rejected {A} e.

End JS.

Notation "v ?? d" := (JS.nullish v d) (at level 45, right associativity).

(** ** The capture hook (useBehavioralCapture.js) *)

Module Capture.

Definition BATCH_INTERVAL : Z := 5000.
Definition MOUSE_THROTTLE : Z := 100.

Inductive KeyAction := down | up.
Inductive MouseAction := move | click.

(** The records pushed on the buffer; [timestamp] is in seconds. *)
Inductive BehavioralEvent :=
| keystroke (key : string) (action : KeyAction) (timestamp : Q)
| mouse (x y : Z) (action : MouseAction) (timestamp : Q).

Record Stats := mkStats {
  keystrokeCount : nat;
  mouseCount : nat;
  batchesSent : nat
}.

(** The state [updateTrustScore]; a fresh object at every
    [setUpdateTrustScore]. *)
Record TrustUpdate := mkTrustUpdate {
  score : JS.value Q;
  status : JS.value string
}.

(** What the handlers read of a DOM keyboard event. *)
Record KeyboardEvent := mkKeyboardEvent {
  target_type : JS.value string;   (* event.target.type *)
  key : string;                    (* event.key *)
  code : string                    (* event.code *)
}.

Record MouseEvent := mkMouseEvent {
  clientX : Z;
  clientY : Z
}.

(** Body of the response of POST /events/batch. *)
Record BatchResult := mkBatchResult {
  events_processed : JS.value Z;
  trust_score : JS.value Q;
  result_status : JS.value string
}.

Inductive LogEntry :=
| log_batch_sent (events_processed : JS.value Z) (trust_score : JS.value Q)
| log_error (label : string) (e : JS.Error).

(** State of one hook instance: the two [useState] cells, the three
    refs, and the console. *)
Record Hook := mkHook {
  stats : Stats;
  updateTrustScore : TrustUpdate;
  updateTrustScore_sets : nat;   (* number of setUpdateTrustScore calls *)
  eventBuffer : list BehavioralEvent;
  lastMouseMove : Z;
  isCapturing : bool;
  console : list LogEntry
}.

Definition initial : Hook :=
  mkHook (mkStats 0 0 0) (mkTrustUpdate JS.null JS.null) 0 [] 0 false [].

(** A call of [eventsAPI.submitBatch(token, sessionId, batch)]. *)
Record Submission := mkSubmission {
  sub_token : JS.value string;
  sub_sessionId : JS.value string;
  sub_events : list BehavioralEvent
}.

Definition push (e : BehavioralEvent) (h : Hook) : Hook :=
  mkHook (stats h) (updateTrustScore h) (updateTrustScore_sets h)
         (eventBuffer h ++ [e]) (lastMouseMove h) (isCapturing h) (console h).

Definition setStats (f : Stats -> Stats) (h : Hook) : Hook :=
  mkHook (f (stats h)) (updateTrustScore h) (updateTrustScore_sets h)
         (eventBuffer h) (lastMouseMove h) (isCapturing h) (console h).

Definition set_lastMouseMove (t : Z) (h : Hook) : Hook :=
  mkHook (stats h) (updateTrustScore h) (updateTrustScore_sets h)
         (eventBuffer h) t (isCapturing h) (console h).

Definition set_eventBuffer (b : list BehavioralEvent) (h : Hook) : Hook :=
  mkHook (stats h) (updateTrustScore h) (updateTrustScore_sets h)
         b (lastMouseMove h) (isCapturing h) (console h).

Definition set_isCapturing (b : bool) (h : Hook) : Hook :=
  mkHook (stats h) (updateTrustScore h) (updateTrustScore_sets h)
         (eventBuffer h) (lastMouseMove h) b (console h).

Definition setUpdateTrustScore (u : TrustUpdate) (h : Hook) : Hook :=
  mkHook (stats h) u (S (updateTrustScore_sets h))
         (eventBuffer h) (lastMouseMove h) (isCapturing h) (console h).

Definition console_write (l : LogEntry) (h : Hook) : Hook :=
  mkHook (stats h) (updateTrustScore h) (updateTrustScore_sets h)
         (eventBuffer h) (lastMouseMove h) (isCapturing h) (console h ++ [l]).

(** [event.target.type === 'password'] *)
Definition sensitive (e : KeyboardEvent) : bool :=
  JS.is_string (target_type e) "password".

(** [event.key.length === 1 ? event.key : event.code] *)
Definition key_name (e : KeyboardEvent) : string :=
  if (String.length (key e) =? 1)%nat then key e else code e.

(** [Date.now() / 1000] *)
Definition seconds (now : Z) : Q := inject_Z now / inject_Z 1000.

Definition handleKeyDown (now : Z) (e : KeyboardEvent) (h : Hook) : Hook :=
  if negb (isCapturing h) then h
  else if sensitive e then h
  else
    let h := push (keystroke (key_name e) down (seconds now)) h in
    setStats (fun prev => mkStats (keystrokeCount prev + 1) (mouseCount prev)
                                  (batchesSent prev)) h.

Definition handleKeyUp (now : Z) (e : KeyboardEvent) (h : Hook) : Hook :=
  if negb (isCapturing h) then h
  else if sensitive e then h
  else push (keystroke (key_name e) up (seconds now)) h.

Definition handleMouseMove (now : Z) (e : MouseEvent) (h : Hook) : Hook :=
  if negb (isCapturing h) then h
  else if now - lastMouseMove h <? MOUSE_THROTTLE then h
  else
    let h := set_lastMouseMove now h in
    let h := push (mouse (clientX e) (clientY e) move (seconds now)) h in
    setStats (fun prev => mkStats (keystrokeCount prev) (mouseCount prev + 1)
                                  (batchesSent prev)) h.

Definition handleMouseClick (now : Z) (e : MouseEvent) (h : Hook) : Hook :=
  if negb (isCapturing h) then h
  else
    let h := push (mouse (clientX e) (clientY e) click (seconds now)) h in
    setStats (fun prev => mkStats (keystrokeCount prev) (mouseCount prev + 1)
                                  (batchesSent prev)) h.

(** [sendEventBatch] up to its [await]: the two guards, the copy of the
    buffer and its replacement by a new empty array.  The second
    component is the submission handed to the transport, if any. *)
Definition sendEventBatch (token sessionId : JS.value string) (h : Hook)
  : Hook * option Submission :=
  if (List.length (eventBuffer h) =? 0)%nat then (h, None)
  else if negb (JS.truthy_string token) || negb (JS.truthy_string sessionId)
  then (h, None)
  else
    let batch := eventBuffer h in
    let h := set_eventBuffer [] h in
    (h, Some (mkSubmission token sessionId batch)).

(** [sendEventBatch] after its [await]: the rest of the [try] block when
    the request resolved, the [catch] block when it was rejected (axios
    rejects on a network error and on a non-2xx response alike). *)
Definition sendEventBatch_settled (o : JS.outcome BatchResult) (h : Hook)
  : Hook :=
  match o with
  | JS.resolved result =>
    let h := setStats (fun prev => mkStats (keystrokeCount prev) (mouseCount prev)
                                           (batchesSent prev + 1)) h in
    let h := match trust_score result with
             | JS.undefined => h
             | _ => setUpdateTrustScore
                      (mkTrustUpdate (trust_score result) (result_status result)) h
             end in
    console_write (log_batch_sent (events_processed result) (trust_score result)) h
  | JS.rejected e =>
    console_write (log_error "Error sending event batch:" e) h
  end.

(** The synchronous part of [startCapture] / [stopCapture]. *)
Definition startCapture (h : Hook) : Hook :=
  if isCapturing h then h else set_isCapturing true h.

Definition stopCapture (token sessionId : JS.value string) (h : Hook)
  : Hook * option Submission :=
  if negb (isCapturing h) then (h, None)
  else
    let h := set_isCapturing false h in
    if (0 <? List.length (eventBuffer h))%nat
    then sendEventBatch token sessionId h
    else (h, None).

(** What recording an input changes: the buffer and the two
    input counters. *)
Definition recorded (h : Hook) : list BehavioralEvent * nat * nat :=
  (eventBuffer h, keystrokeCount (stats h), mouseCount (stats h)).

End Capture.

(** ** The authentication context (AuthProvider) *)

Module Auth.

Record Context := mkContext {
  isAuthenticated : bool;
  token : JS.value string;
  sessionId : JS.value string;
  username : JS.value string;
  authToken : option string;        (* localStorage item 'authToken' *)
  logout_requests : list string     (* tokens sent with POST /auth/logout *)
}.

(** [login(authToken, session)] *)
Definition login (tok sid user : string) (c : Context) : Context :=
  mkContext true (JS.def tok) (JS.def sid) (JS.def user) (Some tok)
            (logout_requests c).

(** [logout()], as created by a render whose token was [tok].  The
    request is sent when [tok] is truthy; whether it succeeds or throws,
    the [finally] block clears the session. *)
Definition logout (tok : JS.value string) (c : Context) : Context :=
  let sent := match tok with
              | JS.def t => if JS.truthy_string tok then [t] else []
              | _ => []
              end in
  mkContext false JS.null JS.null JS.null None (logout_requests c ++ sent).

End Auth.

(** ** The Dashboard component with the policy reactor *)

Module Dashboard.

Definition POLL_INTERVAL_MS : Z := 10000.
Definition TERMINATE_DELAY_MS : Z := 4000.
Definition TOAST_MS : Z := 3000.

Record Alert := mkAlert {
  id : Z;                 (* Date.now() *)
  message : string;
  type : string;
  timestamp : Z           (* the instant shown by toLocaleTimeString() *)
}.

Record Toast := mkToast { toast_message : string; toast_type : string }.

(** What a pending [setTimeout] will run. *)
Inductive Callback :=
| cb_logout (tok : JS.value string)    (* () => logout() *)
| cb_clear_toast.                      (* () => setToast(null) *)

Record Timer := mkTimer { due : Z; callback : Callback }.

(** The values of one render that the functions created by that render
    close over. *)
Record Render := mkRender {
  r_token : JS.value string;
  r_trustScore : JS.value Q;
  r_trustStatus : JS.value string;
  r_showStepUp : bool
}.

(** The component's state cells together with what its effects reach:
    the toast, the pending timers (earliest first), the interval installed
    by the mount effect with the closure it holds, the invocations of
    [logout], the authentication context and the console. *)
Record World := mkWorld {
  trustScore : JS.value Q;
  trustStatus : JS.value string;
  showStepUp : bool;
  alerts : list Alert;
  toast : option Toast;
  timers : list Timer;
  poller : option Render;
  logouts : list Z;
  auth : Auth.Context;
  console : list (string * JS.Error)
}.

(** The render of the current state. *)
Definition render (w : World) : Render :=
  mkRender (Auth.token (auth w)) (trustScore w) (trustStatus w) (showStepUp w).

(** State after the first render and its mount effect: the [useState]
    initial values, and the polling interval holding
    [refreshTrustScore] of that first render. *)
Definition mount (a : Auth.Context) : World :=
  let first := mkRender (Auth.token a) (JS.def (100 # 1)) (JS.def "OK"%string) false in
  mkWorld (JS.def (100 # 1)) (JS.def "OK"%string) false [] None [] (Some first) [] a [].

Definition setTrustScore (v : JS.value Q) (w : World) : World :=
  mkWorld v (trustStatus w) (showStepUp w) (alerts w) (toast w) (timers w)
          (poller w) (logouts w) (auth w) (console w).

Definition setTrustStatus (v : JS.value string) (w : World) : World :=
  mkWorld (trustScore w) v (showStepUp w) (alerts w) (toast w) (timers w)
          (poller w) (logouts w) (auth w) (console w).

Definition setShowStepUp (b : bool) (w : World) : World :=
  mkWorld (trustScore w) (trustStatus w) b (alerts w) (toast w) (timers w)
          (poller w) (logouts w) (auth w) (console w).

Definition setAlerts (f : list Alert -> list Alert) (w : World) : World :=
  mkWorld (trustScore w) (trustStatus w) (showStepUp w) (f (alerts w)) (toast w)
          (timers w) (poller w) (logouts w) (auth w) (console w).

Definition setToast (t : option Toast) (w : World) : World :=
  mkWorld (trustScore w) (trustStatus w) (showStepUp w) (alerts w) t (timers w)
          (poller w) (logouts w) (auth w) (console w).

Definition set_timers (q : list Timer) (w : World) : World :=
  mkWorld (trustScore w) (trustStatus w) (showStepUp w) (alerts w) (toast w) q
          (poller w) (logouts w) (auth w) (console w).

Definition console_error (label : string) (e : JS.Error) (w : World) : World :=
  mkWorld (trustScore w) (trustStatus w) (showStepUp w) (alerts w) (toast w)
          (timers w) (poller w) (logouts w) (auth w) (console w ++ [(label, e)]).

(** [setTimeout(cb, delay)]: the queue stays ordered by due time, a new
    timer going after those already due at the same instant. *)
Fixpoint enqueue (t : Timer) (q : list Timer) : list Timer :=
  match q with
  | [] => [t]
  | x :: q' => if due x <=? due t then x :: enqueue t q' else t :: q
  end.

Definition setTimeout (now : Z) (cb : Callback) (delay : Z) (w : World) : World :=
  set_timers (enqueue (mkTimer (now + delay) cb) (timers w)) w.

(** [logout()] called at instant [at_]: the context is cleared; App then
    renders the unauthenticated view, which unmounts the Dashboard, whose
    mount effect's cleanup clears the polling interval.  Pending timeouts
    are not cleared by any cleanup. *)
Definition logout (at_ : Z) (tok : JS.value string) (w : World) : World :=
  mkWorld (trustScore w) (trustStatus w) (showStepUp w) (alerts w) (toast w)
          (timers w) None (logouts w ++ [at_]) (Auth.logout tok (auth w))
          (console w).

(** [addAlert(message, type)] *)
Definition addAlert (now : Z) (message type : string) (w : World) : World :=
  setAlerts (fun prev => firstn 20 (mkAlert now message type now :: prev)) w.

(** [showToast(message, type)] of the ToastProvider. *)
Definition showToast (now : Z) (message type : string) (w : World) : World :=
  let w := setToast (Some (mkToast message type)) w in
  setTimeout now cb_clear_toast TOAST_MS w.

Definition handleTerminate (r : Render) (now : Z) (w : World) : World :=
  let w := addAlert now "⛔ Session terminated by security policy" "danger" w in
  let w := showToast now "Session terminated — logging out in 4 seconds" "error" w in
  setTimeout now (cb_logout (r_token r)) TERMINATE_DELAY_MS w.

(** [applyPolicy(action, requireStepup, score, status)] as created by the
    render [r]: [trustScore], [trustStatus] and [showStepUp] in its body
    are the values of that render. *)
Definition applyPolicy (r : Render) (now : Z)
    (action : JS.value string) (requireStepup : JS.value bool)
    (score : JS.value Q) (status : JS.value string) (w : World) : World :=
  let w := setTrustScore (score ?? r_trustScore r) w in
  let w := setTrustStatus (status ?? r_trustStatus r) w in
  if JS.is_string action "terminate" then
    handleTerminate r now w
  else if JS.is_string action "stepup" || JS.truthy_bool requireStepup then
    if negb (r_showStepUp r) then
      let w := setShowStepUp true w in
      let w := addAlert now
                 "⚠️ Suspicious behaviour — step-up authentication required"
                 "warning" w in
      showToast now "Re-authentication required" "warning" w
    else w
  else if JS.is_string action "monitor" then
    addAlert now
      ("📊 Trust score in monitoring range (" ++ JS.show_rounded score ++ ")")
      "info" w
  else w.

(** Body of the response of GET /trust/score/{session_id}. *)
Record TrustData := mkTrustData {
  action : JS.value string;
  require_stepup : JS.value bool;
  trust_score : JS.value Q;
  status : JS.value string
}.

(** [refreshTrustScore] of the render [r], after its [await]. *)
Definition refreshTrustScore (r : Render) (now : Z)
    (o : JS.outcome TrustData) (w : World) : World :=
  match o with
  | JS.resolved data =>
    applyPolicy r now (action data) (require_stepup data)
                (trust_score data) (status data) w
  | JS.rejected e => console_error "Error refreshing trust score:" e w
  end.

(** A tick of the polling interval.  The interval was created by the
    effect with the empty dependency list, so it runs the
    [refreshTrustScore] of the first render for as long as the component
    is mounted. *)
Definition pollTick (now : Z) (o : JS.outcome TrustData) (w : World) : World :=
  match poller w with
  | Some first => refreshTrustScore first now o w
  | None => w
  end.

(** The refresh button ([onRefresh]) runs the [refreshTrustScore] of the
    render on screen; the request is taken to settle before the next
    render. *)
Definition onRefresh (now : Z) (o : JS.outcome TrustData) (w : World) : World :=
  refreshTrustScore (render w) now o w.

(** The effect on [updateTrustScore], run by the render that follows a
    [setUpdateTrustScore] of the capture hook; the object holds [score]
    and [status] only, so [action] and [requireStepup] are undefined. *)
Definition onUpdateTrustScore (now : Z) (u : Capture.TrustUpdate)
    (w : World) : World :=
  match Capture.score u with
  | JS.null => w
  | _ => applyPolicy (render w) now JS.undefined JS.undefined
                     (Capture.score u) (Capture.status u) w
  end.

Definition handleStepUpSuccess (now : Z) (w : World) : World :=
  let w := setTrustScore (JS.def (100 # 1)) w in
  let w := setTrustStatus (JS.def "OK"%string) w in
  let w := setShowStepUp false w in
  let w := addAlert now "✅ Step-up authentication successful" "info" w in
  showToast now "Re-authentication successful!" "success" w.

(** [onCancel={logout}] of the StepUpModal, which is rendered only when
    [showStepUp] holds. *)
Definition onCancel (now : Z) (w : World) : World :=
  if showStepUp w then logout now (r_token (render w)) w else w.

(** The event loop reaching instant [t]: the timers due by then run in
    order, each at its due time. *)
Definition run_callback (at_ : Z) (cb : Callback) (w : World) : World :=
  match cb with
  | cb_logout tok => logout at_ tok w
  | cb_clear_toast => setToast None w
  end.

Fixpoint fire (t : Z) (q : list Timer) (w : World) : World :=
  match q with
  | [] => set_timers [] w
  | x :: q' =>
    if due x <=? t then fire t q' (run_callback (due x) (callback x) w)
    else set_timers q w
  end.

Definition advance (t : Z) (w : World) : World := fire t (timers w) w.

Definition is_teardown (t : Timer) : bool :=
  match callback t with
  | cb_logout _ => true
  | cb_clear_toast => false
  end.

(** The session teardowns that are scheduled and have not run. *)
Definition teardowns (w : World) : list Timer := filter is_teardown (timers w).

(** The timers at the front of the queue that are due by [t]. *)
Fixpoint due_by (t : Z) (q : list Timer) : list Timer :=
  match q with
  | [] => []
  | x :: q' => if due x <=? t then x :: due_by t q' else []
  end.

(** What can happen to a mounted Dashboard. *)
Inductive Event :=
| ev_poll (now : Z) (o : JS.outcome TrustData)       (* the interval ticks *)
| ev_refresh (now : Z) (o : JS.outcome TrustData)    (* the refresh button *)
| ev_update (now : Z) (u : Capture.TrustUpdate)      (* a batch brought a score *)
| ev_stepup_success (now : Z)
| ev_cancel (now : Z)
| ev_clock (t : Z).                                  (* time reaches t *)

Definition step (w : World) (e : Event) : World :=
  match e with
  | ev_poll now o => pollTick now o w
  | ev_refresh now o => onRefresh now o w
  | ev_update now u => onUpdateTrustScore now u w
  | ev_stepup_success now => handleStepUpSuccess now w
  | ev_cancel now => onCancel now w
  | ev_clock t => advance t w
  end.

Definition run (es : list Event) (w : World) : World := fold_left step es w.

End Dashboard.

(** ** frontend/src/components/Dashboard.jsx *)

Module DashboardV1.

(** [addAlert(message, type)] of this component keeps ten alerts. *)
Definition addAlert (now : Z) (message type : string) (w : Dashboard.World)
  : Dashboard.World :=
  Dashboard.setAlerts
    (fun prev => firstn 10 (Dashboard.mkAlert now message type now :: prev)) w.

(** [refreshTrustScore] of this component, after its [await]: it stores
    score and status as received and opens the modal on the
    [require_stepup] flag; it reads no [action]. *)
Definition refreshTrustScore (now : Z) (o : JS.outcome Dashboard.TrustData)
    (w : Dashboard.World) : Dashboard.World :=
  match o with
  | JS.resolved data =>
    let w := Dashboard.setTrustScore (Dashboard.trust_score data) w in
    let w := Dashboard.setTrustStatus (Dashboard.status data) w in
    if JS.truthy_bool (Dashboard.require_stepup data) then
      let w := Dashboard.setShowStepUp true w in
      addAlert now "Step-up authentication required" "warning" w
    else w
  | JS.rejected e => Dashboard.console_error "Error refreshing trust score:" e w
  end.

(** [onCancel={() => setShowStepUp(false)}] of the StepUpModal, which is
    rendered only when [showStepUp] holds. *)
Definition onCancel (w : Dashboard.World) : Dashboard.World :=
  if Dashboard.showStepUp w then Dashboard.setShowStepUp false w else w.

End DashboardV1.

(** ** The fallback table of the specification *)

Module PolicyTable.

Inductive Action := continue | monitor | stepup | terminate.

(** Follows the words of the specification, not the source:
    score >= 70 -> continue; 40 <= score < 70 -> monitor;
    20 <= score < 40 -> stepup; score < 20 -> terminate. *)
Definition fallback (score : Q) : Action :=
  if Qle_bool (70 # 1) score then continue
  else if Qle_bool (40 # 1) score then monitor
  else if Qle_bool (20 # 1) score then stepup
  else terminate.

End PolicyTable.

(** ** The trust score card (TrustScoreCard) *)

Module TrustScoreCard.

(** [score < c] on numbers. *)
Definition lt (x c : Q) : bool := negb (Qle_bool c x).

Definition getScoreClass (score : Q) : string :=
  if lt score (40 # 1) then "danger"
  else if lt score (70 # 1) then "warning"
  else "success".

Definition getStatusText (status : JS.value string) : string :=
  if JS.is_string status "OK" then "All systems normal"
  else if JS.is_string status "MONITOR" then "Monitoring for anomalies"
  else if JS.is_string status "SUSPICIOUS" then "Suspicious activity detected"
  else if JS.is_string status "CRITICAL" then "Critical - Session at risk"
  else "Unknown status".

(** The content of the element [trust-score-value]:
    [{Math.round(score)}]. *)
Definition trust_score_value (score : Q) : Z := JS.Math_round score.

(** What the card shows for the state of the Dashboard, when its score
    is a number. *)
Definition shown (w : Dashboard.World) : option Z :=
  match Dashboard.trustScore w with
  | JS.def q => Some (trust_score_value q)
  | _ => None
  end.

End TrustScoreCard.

(** ** The script dashboard controller (updateTrustScore) *)

Module LegacyDashboard.

(** The elements [updateTrustScore] writes. *)
Record Page := mkPage {
  trustScoreValue : Z;                    (* scoreValue.textContent *)
  trustScoreCircle : list string;         (* classes 'warning' / 'danger' *)
  statusText : string;
  statusColor : string;
  alertsContainer : list (string * string)   (* message, type; newest first *)
}.

(** [addAlert(message, type)]: newest first, at most 10 kept. *)
Definition addAlert (message type : string) (p : Page) : Page :=
  mkPage (trustScoreValue p) (trustScoreCircle p) (statusText p) (statusColor p)
         (firstn 10 ((message, type) :: alertsContainer p)).

Definition updateTrustScore (score : Q) (status : JS.value string) (p : Page)
  : Page :=
  let classes :=
    if TrustScoreCard.lt score (40 # 1) then ["danger"%string]
    else if TrustScoreCard.lt score (70 # 1) then ["warning"%string]
    else [] in
  let p := mkPage (JS.Math_round score) classes (statusText p) (statusColor p)
                  (alertsContainer p) in
  let set text color (p : Page) :=
    mkPage (trustScoreValue p) (trustScoreCircle p) text color (alertsContainer p) in
  if JS.is_string status "MONITOR" then
    set "Monitoring for anomalies"%string "#f59e0b"%string p
  else if JS.is_string status "SUSPICIOUS" then
    set "Suspicious activity detected"%string "#ef4444"%string
        (addAlert "Suspicious behavior detected. Step-up authentication may be required."
                  "warning" p)
  else if JS.is_string status "CRITICAL" then
    set "Critical - Session at risk"%string "#ef4444"%string
        (addAlert "Critical trust level. Session will be terminated." "danger" p)
  else set "All systems normal"%string "#10b981"%string p.

End LegacyDashboard.

(** ** base64url transcoding (services/api) *)

Module Base64.

Local Open Scope N_scope.
Local Open Scope char_scope.

Definition alphabet : list ascii :=
  list_ascii_of_string
    "ABCDEFGHIJKLMNOPQRSTUVWXYZabcdefghijklmnopqrstuvwxyz0123456789+/".

(** The character of a six-bit group. *)
Definition char_of (n : N) : ascii := nth (N.to_nat n) alphabet "=".

Fixpoint position (c : ascii) (l : list ascii) (i : N) : option N :=
  match l with
  | [] => None
  | x :: l' => if Ascii.eqb c x then Some i else position c l' (N.succ i)
  end.

(** The six-bit group of a character of the alphabet. *)
Definition index_of (c : ascii) : option N := position c alphabet 0.

(** *** The platform's [btoa]: base64 with padding.
    The argument is a binary string, one character per byte. *)

(** The six-bit groups of the bytes, three bytes giving four groups; the
    last group of a rest of one or two bytes is filled up with zero
    bits. *)
Fixpoint groups (s : list ascii) : list N :=
  match s with
  | [] => []
  | [a] =>
    let a := N_of_ascii a in
    [a / 4; (a mod 4) * 16]
  | [a; b] =>
    let a := N_of_ascii a in
    let b := N_of_ascii b in
    [a / 4; (a mod 4) * 16 + b / 16; (b mod 16) * 4]
  | a :: b :: c :: rest =>
    let a := N_of_ascii a in
    let b := N_of_ascii b in
    let c := N_of_ascii c in
    a / 4 :: (a mod 4) * 16 + b / 16 :: (b mod 16) * 4 + c / 64 :: c mod 64
      :: groups rest
  end.

Definition padding (s : list ascii) : list ascii :=
  match Nat.modulo (List.length s) 3 with
  | 1%nat => ["="; "="]
  | 2%nat => ["="]
  | _ => []
  end.

Definition btoa (s : list ascii) : list ascii :=
  map char_of (groups s) ++ padding s.

(** *** The platform's [atob]: forgiving-base64 decode. *)

(** ASCII whitespace: TAB, LF, FF, CR, SPACE. *)
Definition is_whitespace (c : ascii) : bool :=
  let n := N_of_ascii c in
  (n =? 9)%N || (n =? 10)%N || (n =? 12)%N || (n =? 13)%N || (n =? 32)%N.

(** Removal of one or two trailing ['=']. *)
Definition strip_padding (data : list ascii) : list ascii :=
  match rev data with
  | "=" :: "=" :: r => rev r
  | "=" :: r => rev r
  | _ => data
  end.

Fixpoint indices (data : list ascii) : option (list N) :=
  match data with
  | [] => Some []
  | c :: data' =>
    match index_of c, indices data' with
    | Some n, Some l => Some (n :: l)
    | _, _ => None
    end
  end.

(** Six-bit groups to bytes: four groups give three bytes; a rest of
    three groups gives two bytes and of two groups one byte, the bits
    left over being discarded. *)
Fixpoint decode (l : list N) : list ascii :=
  match l with
  | s1 :: s2 :: s3 :: s4 :: rest =>
    ascii_of_N (s1 * 4 + s2 / 16) :: ascii_of_N ((s2 mod 16) * 16 + s3 / 4)
      :: ascii_of_N ((s3 mod 4) * 64 + s4) :: decode rest
  | [s1; s2; s3] =>
    [ascii_of_N (s1 * 4 + s2 / 16); ascii_of_N ((s2 mod 16) * 16 + s3 / 4)]
  | [s1; s2] => [ascii_of_N (s1 * 4 + s2 / 16)]
  | _ => []
  end.

(** [None] stands for the InvalidCharacterError that [atob] throws. *)
Definition atob (data : list ascii) : option (list ascii) :=
  let data := filter (fun c => negb (is_whitespace c)) data in
  let data := if (Nat.modulo (List.length data) 4 =? 0)%nat
              then strip_padding data else data in
  if (Nat.modulo (List.length data) 4 =? 1)%nat then None
  else
    match indices data with
    | Some l => Some (decode l)
    | None => None
    end.

(** [s.replace(/c/g, d)] for single characters. *)
Definition replace_all (c d : ascii) (s : list ascii) : list ascii :=
  map (fun x => if Ascii.eqb x c then d else x) s.

(** [s.replace(/c/g, '')] *)
Definition remove_all (c : ascii) (s : list ascii) : list ascii :=
  filter (fun x => negb (Ascii.eqb x c)) s.

(** A buffer is the list of its bytes; [String.fromCharCode(bytes[i])]
    is [ascii_of_byte] and [charCodeAt(i)] on a binary string is
    [byte_of_ascii]. *)
Definition arrayBufferToBase64 (buffer : list byte) : list ascii :=
  let binary := map ascii_of_byte buffer in
  remove_all "=" (replace_all "/" "_" (replace_all "+" "-" (btoa binary))).

Definition base64ToArrayBuffer (base64 : list ascii) : option (list byte) :=
  match atob (replace_all "_" "/" (replace_all "-" "+" base64)) with
  | Some binaryString => Some (map byte_of_ascii binaryString)
  | None => None
  end.

End Base64.

(** ** The capture hook under the Dashboard *)

Module App.

(** The Dashboard calls [useBehavioralCapture(token, sessionId)] and
    reads [updateTrustScore] from it. *)
Record State := mkState {
  hook : Capture.Hook;
  dash : Dashboard.World
}.

(** The request of a flush settles.  When the continuation of
    [sendEventBatch] has set [updateTrustScore], the following render
    runs the Dashboard's effect on it; otherwise the Dashboard is not
    rendered again. *)
Definition batchSettled (now : Z) (o : JS.outcome Capture.BatchResult)
    (a : State) : State :=
  let h := Capture.sendEventBatch_settled o (hook a) in
  let d :=
    if (Capture.updateTrustScore_sets h =? Capture.updateTrustScore_sets (hook a))%nat
    then dash a
    else Dashboard.onUpdateTrustScore now (Capture.updateTrustScore h) (dash a) in
  mkState h d.

End App.

(** ** Concrete inputs used below *)

Module Sample.

Definition session : Auth.Context :=
  Auth.login "tok-1" "sess-1" "alice"
             (Auth.mkContext false JS.null JS.null JS.null None []).

(** A key pressed in a text input, and in a password input. *)
Definition text_key : Capture.KeyboardEvent :=
  Capture.mkKeyboardEvent (JS.def "text"%string) "a" "KeyA".
Definition password_key : Capture.KeyboardEvent :=
  Capture.mkKeyboardEvent (JS.def "password"%string) "s" "KeyS".
Definition pointer : Capture.MouseEvent := Capture.mkMouseEvent 10 20.

(** A capturing hook that has recorded one key press and one click. *)
Definition capturing : Capture.Hook :=
  Capture.handleMouseClick 1500 pointer
    (Capture.handleKeyDown 1000 text_key (Capture.startCapture Capture.initial)).

Definition dashboard : Dashboard.World := Dashboard.mount session.

Definition verdict (a : JS.value string) (q : Q) (s : string)
  : JS.outcome Dashboard.TrustData :=
  JS.resolved (Dashboard.mkTrustData a JS.undefined (JS.def q) (JS.def s)).

Definition network_error : JS.Error := JS.mkError "AxiosError" "Network Error".

(** A snapshot without an [action] field. *)
Definition snapshot (q : Q) (s : string) : JS.outcome Dashboard.TrustData :=
  verdict JS.undefined q s.

(** Two polls, ten seconds apart, both answering [stepup]. *)
Definition stepup_once : Dashboard.World :=
  Dashboard.pollTick 10000 (verdict (JS.def "stepup"%string) (30 # 1) "SUSPICIOUS")
                     dashboard.
Definition stepup_twice : Dashboard.World :=
  Dashboard.pollTick 20000 (verdict (JS.def "stepup"%string) (30 # 1) "SUSPICIOUS")
                     stepup_once.

(** A poll answering [terminate], and the refresh button bringing the same
    verdict one second later. *)
Definition terminate_once : Dashboard.World :=
  Dashboard.pollTick 10000 (verdict (JS.def "terminate"%string) (10 # 1) "CRITICAL")
                     dashboard.
Definition terminate_twice : Dashboard.World :=
  Dashboard.onRefresh 11000 (verdict (JS.def "terminate"%string) (10 # 1) "CRITICAL")
                      terminate_once.

End Sample.

(** ** Runs of the capture hook *)

Module CaptureRun.
Import Capture.

(** What reaches one hook instance: the effect starting and stopping the
    capture, the four DOM events, a tick of the batch interval, and the
    settling of a submission. *)
Inductive Input :=
| in_start
| in_stop
| in_keydown (now : Z) (e : KeyboardEvent)
| in_keyup (now : Z) (e : KeyboardEvent)
| in_mousemove (now : Z) (e : MouseEvent)
| in_click (now : Z) (e : MouseEvent)
| in_tick
| in_settled (o : JS.outcome BatchResult).

(** The hook together with the submissions handed to the transport so
    far, oldest first. *)
Record Trace := mkTrace {
  hook : Hook;
  submitted : list Submission
}.

Definition handed (t : Trace) (r : Hook * option Submission) : Trace :=
  mkTrace (fst r)
          (match snd r with
           | Some sub => submitted t ++ [sub]
           | None => submitted t
           end).

(** [token] and [sessionId] are those of the render whose effect started
    the capture. *)
Definition step (token sessionId : JS.value string) (t : Trace) (i : Input)
  : Trace :=
  match i with
  | in_start => mkTrace (startCapture (hook t)) (submitted t)
  | in_stop => handed t (stopCapture token sessionId (hook t))
  | in_keydown now e => mkTrace (handleKeyDown now e (hook t)) (submitted t)
  | in_keyup now e => mkTrace (handleKeyUp now e (hook t)) (submitted t)
  | in_mousemove now e => mkTrace (handleMouseMove now e (hook t)) (submitted t)
  | in_click now e => mkTrace (handleMouseClick now e (hook t)) (submitted t)
  | in_tick => handed t (sendEventBatch token sessionId (hook t))
  | in_settled o => mkTrace (sendEventBatch_settled o (hook t)) (submitted t)
  end.

Definition run (token sessionId : JS.value string) (inputs : list Input)
  : Trace :=
  fold_left (step token sessionId) inputs (mkTrace initial []).

(** Every event recorded so far, in the order of recording: the batches
    handed over, then the buffer. *)
Definition all_events (t : Trace) : list BehavioralEvent :=
  List.concat (map sub_events (submitted t)) ++ eventBuffer (hook t).

Definition is_keydown (e : BehavioralEvent) : bool :=
  match e with
  | keystroke _ down _ => true
  | _ => false
  end.

Definition is_mouse (e : BehavioralEvent) : bool :=
  match e with
  | mouse _ _ _ _ => true
  | _ => false
  end.

(** The timestamps (in seconds) of the recorded mouse moves. *)
Fixpoint move_stamps (l : list BehavioralEvent) : list Q :=
  match l with
  | [] => []
  | mouse _ _ move ts :: l' => ts :: move_stamps l'
  | _ :: l' => move_stamps l'
  end.

(** Did the hook record this mouse move?  (The buffer grew.) *)
Definition move_recorded (now : Z) (e : MouseEvent) (h : Hook) : bool :=
  (List.length (eventBuffer h)
   <? List.length (eventBuffer (handleMouseMove now e h)))%nat.

(** The clock values ([Date.now()], in ms) of the mouse moves that the
    hook records while it goes through [inputs] from [t], oldest
    first. *)
Fixpoint move_instants_from (token sessionId : JS.value string) (t : Trace)
    (inputs : list Input) : list Z :=
  match inputs with
  | [] => []
  | i :: rest =>
    match i with
    | in_mousemove now e => if move_recorded now e (hook t) then [now] else []
    | _ => []
    end ++ move_instants_from token sessionId (step token sessionId t i) rest
  end.

Definition move_instants (token sessionId : JS.value string)
    (inputs : list Input) : list Z :=
  move_instants_from token sessionId (mkTrace initial []) inputs.

(** Each instant is at least MOUSE_THROTTLE after the instant before
    it. *)
Inductive apart : list Z -> Prop :=
| apart_nil : apart []
| apart_one t : apart [t]
| apart_cons t1 t2 l :
    t1 + MOUSE_THROTTLE <= t2 -> apart (t2 :: l) -> apart (t1 :: t2 :: l).

(** The effect on [token, sessionId] (lines 19-24 of the hook): without
    a token or a session id nothing is started; otherwise the capture is
    started, and the handlers, the interval and the cleanup it registers
    are those of this render, with this [token] and [sessionId]. *)
Definition effect (token sessionId : JS.value string) (h : Hook) : option Hook :=
  if negb (JS.truthy_string token) || negb (JS.truthy_string sessionId)
  then None
  else Some (startCapture h).

(** Is the input one of the four DOM events? *)
Definition is_dom (i : Input) : bool :=
  match i with
  | in_keydown _ _ | in_keyup _ _ | in_mousemove _ _ | in_click _ _ => true
  | _ => false
  end.

End CaptureRun.

(** ** The timer queue *)

Module Queue.
Import Dashboard.

Definition by_due (x y : Timer) : Prop := due x <= due y.

Definition is_clear_toast (t : Timer) : bool :=
  match callback t with
  | cb_clear_toast => true
  | cb_logout _ => false
  end.

End Queue.

(** ** serializeCredential (services/api) *)

Module Api.

(** The buffers of an authenticator response; an absent one is [None]
    (a buffer that is present is truthy, also when empty). *)
Record AuthenticatorResponse := mkAuthenticatorResponse {
  clientDataJSON : list byte;
  authenticatorData : option (list byte);
  signature : option (list byte);
  userHandle : option (list byte);
  attestationObject : option (list byte)
}.

Record PublicKeyCredential := mkPublicKeyCredential {
  id : string;
  rawId : list byte;
  type : string;
  response : AuthenticatorResponse
}.

Record SerializedResponse := mkSerializedResponse {
  s_clientDataJSON : list ascii;
  s_authenticatorData : JS.value (list ascii);
  s_signature : JS.value (list ascii);
  s_userHandle : JS.value (list ascii);
  s_attestationObject : JS.value (list ascii)
}.

Record SerializedCredential := mkSerializedCredential {
  s_id : string;
  s_rawId : list ascii;
  s_type : string;
  s_response : SerializedResponse
}.

(** [b ? arrayBufferToBase64(b) : undefined] *)
Definition optional (b : option (list byte)) : JS.value (list ascii) :=
  match b with
  | Some buffer => JS.def (Base64.arrayBufferToBase64 buffer)
  | None => JS.undefined
  end.

Definition serializeCredential (credential : PublicKeyCredential)
  : SerializedCredential :=
  mkSerializedCredential
    (id credential)
    (Base64.arrayBufferToBase64 (rawId credential))
    (type credential)
    (mkSerializedResponse
       (Base64.arrayBufferToBase64 (clientDataJSON (response credential)))
       (optional (authenticatorData (response credential)))
       (optional (signature (response credential)))
       (optional (userHandle (response credential)))
       (optional (attestationObject (response credential)))).

(** A serialized optional field carries an optional buffer: an absent
    buffer is [undefined], a buffer that is present is a string that
    [base64ToArrayBuffer] decodes to it. *)
Definition carries (v : JS.value (list ascii)) (o : option (list byte)) : Prop :=
  match o with
  | Some buffer =>
    exists s, v = JS.def s /\ Base64.base64ToArrayBuffer s = Some buffer
  | None => v = JS.undefined
  end.

End Api.

(** ** The step-up modal (StepUpModal, handleAuth) *)

Module StepUpModal.

(** An entry of [options.allowCredentials]; [d_rest] stands for the
    fields copied by the spread. *)
Record Descriptor := mkDescriptor {
  d_id : list ascii;
  d_rest : string
}.

(** [beginData.options]; [o_rest] stands for the fields copied by the
    spread. *)
Record Options := mkOptions {
  challenge : list ascii;
  allowCredentials : JS.value (list Descriptor);
  o_rest : string
}.

(** The [publicKey] given to [navigator.credentials.get]. *)
Record PublicKey := mkPublicKey {
  pk_challenge : list byte;
  pk_allowCredentials : list (list byte * string);
  pk_rest : string
}.

(** What the three awaited calls answer. *)
Record Env := mkEnv {
  stepupBegin : JS.outcome Options;
  credentials_get : PublicKey -> JS.outcome (option Api.PublicKeyCredential);
  stepupComplete : Api.SerializedCredential -> JS.outcome unit
}.

(** The two state cells of the modal. *)
Record Modal := mkModal {
  loading : bool;
  error : JS.value string
}.

(** The modal after [handleAuth] has run to its end, with what it did on
    the way. *)
Record Run := mkRun {
  modal : Modal;
  succeeded : bool;                              (* onSuccess() was called *)
  prompted : option PublicKey;                   (* credentials.get was called *)
  verified : option Api.SerializedCredential     (* stepupComplete was called *)
}.

(** What [atob] throws on a string it cannot decode. *)
Definition InvalidCharacterError : JS.Error :=
  JS.mkError "InvalidCharacterError" "The string to be decoded is not correctly encoded.".

Definition no_credential : JS.Error :=
  JS.mkError "Error" "No credential returned by authenticator".

(** [base64ToArrayBuffer] inside a [try]. *)
Definition decode (s : list ascii) : JS.Error + list byte :=
  match Base64.base64ToArrayBuffer s with
  | Some b => inr b
  | None => inl InvalidCharacterError
  end.

(** [(options.allowCredentials || []).map(cred => ({...cred, id:
    base64ToArrayBuffer(cred.id)}))] *)
Fixpoint decode_all (l : list Descriptor) : JS.Error + list (list byte * string) :=
  match l with
  | [] => inr []
  | d :: l' =>
    match decode (d_id d) with
    | inl e => inl e
    | inr b =>
      match decode_all l' with
      | inl e => inl e
      | inr r => inr ((b, d_rest d) :: r)
      end
    end
  end.

Definition publicKeyOptions (options : Options) : JS.Error + PublicKey :=
  match decode (challenge options) with
  | inl e => inl e
  | inr c =>
    let creds := match allowCredentials options with
                 | JS.def l => l
                 | _ => []
                 end in
    match decode_all creds with
    | inl e => inl e
    | inr l => inr (mkPublicKey c l (o_rest options))
    end
  end.

(** The [catch] block: the message shown for an error. *)
Definition message_for (err : JS.Error) : string :=
  if String.eqb (JS.name err) "NotAllowedError" then
    "Authentication was cancelled or timed out."
  else if String.eqb (JS.name err) "SecurityError" then
    "Security error — ensure you are on the correct origin."
  else if String.eqb (JS.message err) "" then "Step-up authentication failed."
  else JS.message err.

Definition failed (err : JS.Error) (p : option PublicKey)
    (v : option Api.SerializedCredential) : Run :=
  mkRun (mkModal false (JS.def (message_for err))) false p v.

(** [handleAuth], from the click to its [finally]. *)
Definition handleAuth (env : Env) : Run :=
  match stepupBegin env with
  | JS.rejected e => failed e None None
  | JS.resolved options =>
    match publicKeyOptions options with
    | inl e => failed e None None
    | inr pk =>
      match credentials_get env pk with
      | JS.rejected e => failed e (Some pk) None
      | JS.resolved None => failed no_credential (Some pk) None
      | JS.resolved (Some credential) =>
        let serialized := Api.serializeCredential credential in
        match stepupComplete env serialized with
        | JS.rejected e => failed e (Some pk) (Some serialized)
        | JS.resolved _ =>
          mkRun (mkModal false JS.null) true (Some pk) (Some serialized)
        end
      end
    end
  end.

End StepUpModal.

(** ** The script capture agent and its logout (capture.js, auth.js) *)

Module LegacyAgent.
Import Capture.

(** The globals of the two scripts. *)
Record Globals := mkGlobals {
  currentToken : JS.value string;
  currentSessionId : JS.value string;
  currentUsername : JS.value string;
  authToken : option string;              (* localStorage item 'authToken' *)
  isCapturing : bool;
  eventBuffer : list BehavioralEvent;
  batchInterval : bool;                   (* an interval is installed *)
  keystrokeCount : nat;
  mouseCount : nat;
  batchesSent : nat;
  lastMouseMove : Z;
  dashboardView : bool                    (* the dashboard view is active *)
}.

Definition startCapture (g : Globals) : Globals :=
  if isCapturing g then g
  else mkGlobals (currentToken g) (currentSessionId g) (currentUsername g)
                 (authToken g) true [] true 0 0 0 (lastMouseMove g)
                 (dashboardView g).

Definition record_event (e : BehavioralEvent) (keys mice : nat) (last : Z)
    (g : Globals) : Globals :=
  mkGlobals (currentToken g) (currentSessionId g) (currentUsername g)
            (authToken g) (isCapturing g) (eventBuffer g ++ [e])
            (batchInterval g) (keystrokeCount g + keys) (mouseCount g + mice)
            (batchesSent g) last (dashboardView g).

Definition handleKeyDown (now : Z) (e : KeyboardEvent) (g : Globals) : Globals :=
  if negb (isCapturing g) then g
  else if sensitive e then g
  else record_event (keystroke (key_name e) down (seconds now)) 1 0
                    (lastMouseMove g) g.

Definition handleKeyUp (now : Z) (e : KeyboardEvent) (g : Globals) : Globals :=
  if negb (isCapturing g) then g
  else if sensitive e then g
  else record_event (keystroke (key_name e) up (seconds now)) 0 0
                    (lastMouseMove g) g.

Definition handleMouseMove (now : Z) (e : MouseEvent) (g : Globals) : Globals :=
  if negb (isCapturing g) then g
  else if now - lastMouseMove g <? MOUSE_THROTTLE then g
  else record_event (mouse (clientX e) (clientY e) move (seconds now)) 0 1 now g.

Definition handleMouseClick (now : Z) (e : MouseEvent) (g : Globals) : Globals :=
  if negb (isCapturing g) then g
  else record_event (mouse (clientX e) (clientY e) click (seconds now)) 0 1
                    (lastMouseMove g) g.

(** [sendEventBatch] up to its [await]. *)
Definition sendEventBatch (g : Globals) : Globals * option Submission :=
  if (List.length (eventBuffer g) =? 0)%nat then (g, None)
  else if negb (JS.truthy_string (currentToken g))
          || negb (JS.truthy_string (currentSessionId g))
  then (g, None)
  else
    (mkGlobals (currentToken g) (currentSessionId g) (currentUsername g)
               (authToken g) (isCapturing g) [] (batchInterval g)
               (keystrokeCount g) (mouseCount g) (batchesSent g)
               (lastMouseMove g) (dashboardView g),
     Some (mkSubmission (currentToken g) (currentSessionId g) (eventBuffer g))).

Definition stopCapture (g : Globals) : Globals * option Submission :=
  if negb (isCapturing g) then (g, None)
  else
    let g := mkGlobals (currentToken g) (currentSessionId g) (currentUsername g)
                       (authToken g) false (eventBuffer g) false
                       (keystrokeCount g) (mouseCount g) (batchesSent g)
                       (lastMouseMove g) (dashboardView g) in
    if (0 <? List.length (eventBuffer g))%nat then sendEventBatch g
    else (g, None).

(** [logout()] of auth.js after its [await] (the request's failure is
    caught and logged): the state is cleared, then the capture is
    stopped, then the view is switched. *)
Definition logout (g : Globals) : Globals * option Submission :=
  let g := mkGlobals JS.null JS.null JS.null None (isCapturing g) (eventBuffer g)
                     (batchInterval g) (keystrokeCount g) (mouseCount g)
                     (batchesSent g) (lastMouseMove g) (dashboardView g) in
  let (g, sub) := stopCapture g in
  (mkGlobals (currentToken g) (currentSessionId g) (currentUsername g)
             (authToken g) (isCapturing g) (eventBuffer g) (batchInterval g)
             (keystrokeCount g) (mouseCount g) (batchesSent g)
             (lastMouseMove g) false,
   sub).

End LegacyAgent.

(** ** Characters of base64url *)

Module Base64Url.

Local Open Scope N_scope.

(** Letters, digits, ['-'] and ['_']. *)
Definition url_safe (c : ascii) : bool :=
  let n := N_of_ascii c in
  ((65 <=? n) && (n <=? 90)) || ((97 <=? n) && (n <=? 122))
  || ((48 <=? n) && (n <=? 57)) || (n =? 45) || (n =? 95).

End Base64Url.

(** ** More concrete inputs *)

Module Sample2.

Definition credential : Api.PublicKeyCredential :=
  Api.mkPublicKeyCredential "cred-1" [Byte.x01; Byte.xfb; Byte.xff] "public-key"
    (Api.mkAuthenticatorResponse [Byte.x7b; Byte.x7d] (Some [Byte.x00; Byte.x3e])
                                 (Some [Byte.xff]) None None).

Definition options : StepUpModal.Options :=
  StepUpModal.mkOptions (list_ascii_of_string "APv_Pg")
    (JS.def [StepUpModal.mkDescriptor (list_ascii_of_string "Afv_") "public-key"])
    "rp".

(** The server answers, the authenticator produces [credential], the
    verification succeeds. *)
Definition happy : StepUpModal.Env :=
  StepUpModal.mkEnv (JS.resolved options)
                    (fun _ => JS.resolved (Some credential))
                    (fun _ => JS.resolved tt).

(** The user dismisses the authenticator prompt. *)
Definition dismissed : StepUpModal.Env :=
  StepUpModal.mkEnv (JS.resolved options)
                    (fun _ => JS.rejected (JS.mkError "NotAllowedError" "The operation either timed out or was not allowed."))
                    (fun _ => JS.resolved tt).

(** The challenge is not base64. *)
Definition garbled : StepUpModal.Env :=
  StepUpModal.mkEnv
    (JS.resolved (StepUpModal.mkOptions (list_ascii_of_string "A") JS.undefined "rp"))
    (fun _ => JS.resolved (Some credential))
    (fun _ => JS.resolved tt).

(** The script agent, logged in and capturing, with one key press in its
    buffer. *)
Definition script : LegacyAgent.Globals :=
  LegacyAgent.handleKeyDown 1000 Sample.text_key
    (LegacyAgent.startCapture
       (LegacyAgent.mkGlobals (JS.def "tok-1"%string) (JS.def "sess-1"%string)
                              (JS.def "alice"%string) (Some "tok-1"%string)
                              false [] false 0 0 0 0 true)).

(** A short session of the hook: typing, moving the mouse, a flush. *)
Definition inputs : list CaptureRun.Input :=
  [CaptureRun.in_start;
   CaptureRun.in_keydown 1000 Sample.text_key;
   CaptureRun.in_keyup 1080 Sample.text_key;
   CaptureRun.in_mousemove 1100 Sample.pointer;
   CaptureRun.in_mousemove 1150 Sample.pointer;
   CaptureRun.in_mousemove 1200 Sample.pointer;
   CaptureRun.in_tick;
   CaptureRun.in_click 1300 Sample.pointer].

End Sample2.

(** ** logout of the AuthProvider, at its await *)

Module AuthProvider.

Record State := mkState {
  context : Auth.Context;
  console : list (string * JS.Error)
}.






End AuthProvider.

(** ** The Dashboard's requests for the session and the alerts *)

Module DashboardIO.
Import Dashboard.

(** An entry of the answer of GET /trust/alerts; [b_created_at] is the
    instant that [new Date(a.created_at)] denotes. *)
Record BackendAlert := mkBackendAlert {
  b_id : Z;
  b_message : string;
  b_severity : string;
  b_created_at : Z
}.

Definition mapped (a : BackendAlert) : Alert :=
  mkAlert (b_id a) (b_message a) (b_severity a) (b_created_at a).

(** [fetchAlerts] after its [await]: the answer replaces the alert list,
    as long as it is; a failure is ignored. *)
Definition fetchAlerts_settled (o : JS.outcome (list BackendAlert)) (w : World)
  : World :=
  match o with
  | JS.resolved data => setAlerts (fun _ => map mapped data) w
  | JS.rejected _ => w
  end.

(** What [loadSessionInfo] reads of the answer of GET /auth/session. *)
Record SessionData := mkSessionData {
  s_trust_score : JS.value Q;
  s_status : JS.value string
}.

(** [loadSessionInfo] after its [await] ([sessionInfo], which only the
    session card reads, is not among the cells of [World]). *)
Definition loadSessionInfo_settled (o : JS.outcome SessionData) (w : World)
  : World :=
  match o with
  | JS.resolved data =>
    setTrustStatus (s_status data) (setTrustScore (s_trust_score data) w)
  | JS.rejected e => console_error "Error loading session info:" e w
  end.

(** The effect on [updateTrustScore] (lines 115-123) with its request:
    [true] when the effect goes on to call [fetchAlerts]. *)
Definition onUpdateTrustScore (now : Z) (u : Capture.TrustUpdate) (w : World)
  : World * bool :=
  match Capture.score u with
  | JS.null => (w, false)
  | _ => (Dashboard.onUpdateTrustScore now u w, true)
  end.

(** [handleStepUpSuccess] (lines 128-135), which ends by calling
    [fetchAlerts]. *)
Definition handleStepUpSuccess (now : Z) (w : World) : World * bool :=
  (Dashboard.handleStepUpSuccess now w, true).

(** The answer [o] to the [fetchAlerts] that was called, if one was. *)
Definition answered (called : bool) (o : JS.outcome (list BackendAlert))
    (w : World) : World :=
  if called then fetchAlerts_settled o w else w.

(** The request of a flush settles; see [App.batchSettled].  [true] when
    the Dashboard's effect has called [fetchAlerts]. *)
Definition batchSettled (now : Z) (o : JS.outcome Capture.BatchResult)
    (a : App.State) : App.State * bool :=
  let h := Capture.sendEventBatch_settled o (App.hook a) in
  if (Capture.updateTrustScore_sets h
      =? Capture.updateTrustScore_sets (App.hook a))%nat
  then (App.mkState h (App.dash a), false)
  else
    let p := onUpdateTrustScore now (Capture.updateTrustScore h) (App.dash a) in
    (App.mkState h (fst p), snd p).

(** What can happen to a Dashboard, requests included: the events of
    [Dashboard.Event]; the answer to a [fetchAlerts] and to the
    [loadSessionInfo]; and the answer to a [refreshTrustScore] of any
    render [r], whenever it arrives (also after the interval has been
    cleared). *)
Inductive Event :=
| io_dashboard (e : Dashboard.Event)
| io_alerts (o : JS.outcome (list BackendAlert))
| io_session (o : JS.outcome SessionData)
| io_answer (r : Render) (now : Z) (o : JS.outcome TrustData).

Definition step (w : World) (e : Event) : World :=
  match e with
  | io_dashboard e => Dashboard.step w e
  | io_alerts o => fetchAlerts_settled o w
  | io_session o => loadSessionInfo_settled o w
  | io_answer r now o => refreshTrustScore r now o w
  end.

Definition run (es : list Event) (w : World) : World := fold_left step es w.

(** Does the answer to a [fetchAlerts] hold at most [n] alerts?  (The
    request asks for [limit = 20].) *)
Definition within_limit (n : nat) (e : Event) : bool :=
  match e with
  | io_alerts (JS.resolved data) => (List.length data <=? n)%nat
  | _ => true
  end.

End DashboardIO.

(** ** Concrete inputs for the earlier Dashboard *)

Module Sample3.


Definition server_alerts : list DashboardIO.BackendAlert :=
  [DashboardIO.mkBackendAlert 7 "Trust score dropped" "warning" 9000].

(** A Dashboard that got a step-up verdict and then the server's
    alerts. *)
Definition io_events : list DashboardIO.Event :=
  [DashboardIO.io_dashboard
     (Dashboard.ev_poll 10000
        (Sample.verdict (JS.def "stepup"%string) (30 # 1) "SUSPICIOUS"));
   DashboardIO.io_alerts (JS.resolved server_alerts)].

End Sample3.

(** ** Tactics *)

(** Goals on the codes of characters: each code is below 256, and the
    divisions and remainders by constants are linear facts. *)
Ltac byte_arith :=
  repeat match goal with
         | a : ascii |- _ =>
           let H := fresh in
           pose proof (N_ascii_bounded a) as H;
           generalize dependent (N_of_ascii a); clear a; intros
         end;
  zify; Z.to_euclidean_division_equations; lia.

(** * Properties *)

(** ** Capture *)

Module CaptureFacts.
Import Capture.

Lemma sensitive_keydown_ignored now e h :
  sensitive e = true -> handleKeyDown now e h = h.
Proof.
  intros Hs. unfold handleKeyDown. rewrite Hs.
  now destruct (negb (isCapturing h)).
Qed.

Lemma sensitive_keyup_ignored now e h :
  sensitive e = true -> handleKeyUp now e h = h.
Proof.
  intros Hs. unfold handleKeyUp. rewrite Hs.
  now destruct (negb (isCapturing h)).
Qed.

(** C3. A keydown or keyup whose target is a password field leaves the
    event buffer, keystrokeCount and mouseCount as they were (capture
    active or not). *)
Theorem sensitive_keystroke_not_recorded :
  forall (now : Z) (e : KeyboardEvent) (h : Hook),
    sensitive e = true ->
    recorded (handleKeyDown now e h) = recorded h /\
    recorded (handleKeyUp now e h) = recorded h.
Proof.
  intros now e h Hs.
  now rewrite sensitive_keydown_ignored, sensitive_keyup_ignored.
Qed.

Lemma sensitive_keystroke_not_recorded_witness :
  isCapturing Sample.capturing = true /\
  recorded (handleKeyDown 2000 Sample.password_key Sample.capturing)
    = recorded Sample.capturing /\
  recorded (handleKeyUp 2000 Sample.password_key Sample.capturing)
    = recorded Sample.capturing.
Proof.
  split; [reflexivity|].
  apply (sensitive_keystroke_not_recorded 2000 Sample.password_key Sample.capturing).
  reflexivity.
Defined.

(** Past its two guards, [sendEventBatch] swaps the buffer for an empty
    one and hands over what the buffer held. *)
Lemma swap_with_session token sessionId h :
  eventBuffer h <> [] ->
  JS.truthy_string token = true ->
  JS.truthy_string sessionId = true ->
  sendEventBatch token sessionId h
    = (set_eventBuffer [] h, Some (mkSubmission token sessionId (eventBuffer h))).
Proof.
  intros Hne Ht Hs.
  unfold sendEventBatch. rewrite Ht, Hs. cbn [negb orb].
  destruct (eventBuffer h) as [|x l] eqn:Hb; [contradiction|].
  reflexivity.
Qed.

(** The token and the session id of a hook that its effect has started
    are truthy: the effect returns before [startCapture] otherwise. *)
Lemma started_has_session token sessionId h0 h :
  CaptureRun.effect token sessionId h0 = Some h ->
  JS.truthy_string token = true /\ JS.truthy_string sessionId = true.
Proof.
  unfold CaptureRun.effect.
  destruct (JS.truthy_string token), (JS.truthy_string sessionId);
    cbn; intros [=]; split; reflexivity.
Qed.

(** C4. In a hook that its effect has started (from whatever state the
    hook was left in), and whatever it has gone through since, a flush
    of a non-empty buffer leaves the buffer empty and submits exactly the
    events the buffer held, in their order, under the token and the
    session id of that render; the next recorded event starts the new
    buffer; the tick of the batch interval is that flush. *)
Theorem flush_swaps_buffer :
  forall (token sessionId : JS.value string) (h0 h : Hook)
         (inputs : list CaptureRun.Input),
    CaptureRun.effect token sessionId h0 = Some h ->
    let t := fold_left (CaptureRun.step token sessionId) inputs
                       (CaptureRun.mkTrace h []) in
    eventBuffer (CaptureRun.hook t) <> [] ->
    exists h' sub,
      sendEventBatch token sessionId (CaptureRun.hook t) = (h', Some sub) /\
      eventBuffer h' = [] /\
      sub_events sub = eventBuffer (CaptureRun.hook t) /\
      sub_token sub = token /\ sub_sessionId sub = sessionId /\
      (forall e, eventBuffer (push e h') = [e]) /\
      CaptureRun.step token sessionId t CaptureRun.in_tick
        = CaptureRun.mkTrace h' (CaptureRun.submitted t ++ [sub]).
Proof.
  intros token sessionId h0 h inputs Hm t Hne.
  destruct (started_has_session _ _ _ _ Hm) as (Ht & Hs).
  eexists _, _. split; [now apply swap_with_session|].
  cbn [CaptureRun.step]. rewrite (swap_with_session _ _ _ Hne Ht Hs).
  repeat split.
Qed.

Lemma flush_swaps_buffer_witness :
  let t := fold_left (CaptureRun.step (JS.def "tok-1"%string) (JS.def "sess-1"%string))
                     Sample2.inputs
                     (CaptureRun.mkTrace (startCapture initial) []) in
  exists h' sub,
    sendEventBatch (JS.def "tok-1"%string) (JS.def "sess-1"%string) (CaptureRun.hook t)
      = (h', Some sub) /\
    eventBuffer h' = [] /\
    sub_events sub = eventBuffer (CaptureRun.hook t) /\
    sub_token sub = JS.def "tok-1"%string /\
    sub_sessionId sub = JS.def "sess-1"%string /\
    (forall e, eventBuffer (push e h') = [e]) /\
    CaptureRun.step (JS.def "tok-1"%string) (JS.def "sess-1"%string) t
                    CaptureRun.in_tick
      = CaptureRun.mkTrace h' (CaptureRun.submitted t ++ [sub]).
Proof.
  apply (flush_swaps_buffer (JS.def "tok-1"%string) (JS.def "sess-1"%string)
                            initial (startCapture initial) Sample2.inputs).
  - reflexivity.
  - discriminate.
Defined.

(** C5, as stated, fails for keyup: a key released in a text field while
    capture is active is buffered, and keystrokeCount stays where it was
    instead of going up by one. *)
Lemma keyup_not_counted :
  isCapturing Sample.capturing = true /\
  sensitive Sample.text_key = false /\
  eventBuffer (handleKeyUp 2000 Sample.text_key Sample.capturing)
    = eventBuffer Sample.capturing ++ [keystroke "a" up (seconds 2000)] /\
  keystrokeCount (stats Sample.capturing) = 1%nat /\
  keystrokeCount (stats (handleKeyUp 2000 Sample.text_key Sample.capturing)) = 1%nat.
Proof. repeat split. Qed.

(** C5, amended. While capture is active, at whatever instant: a keydown
    outside a password field is buffered and adds one to keystrokeCount
    (and nothing to mouseCount); a keyup outside a password field is
    buffered and changes no counter; a click is buffered and adds one to
    mouseCount (and nothing to keystrokeCount); a keydown or keyup in a
    password field changes no counter.  A mouse move that is not
    throttled (at least MOUSE_THROTTLE after the last recorded move) is
    buffered and adds one to mouseCount (and nothing to keystrokeCount);
    a throttled one changes nothing. *)
Theorem counters_follow_events :
  forall (now now_move now_early : Z) (k s : KeyboardEvent) (m : MouseEvent)
         (h : Hook),
    isCapturing h = true ->
    sensitive k = false ->
    sensitive s = true ->
    MOUSE_THROTTLE <= now_move - lastMouseMove h ->
    now_early - lastMouseMove h < MOUSE_THROTTLE ->
    (keystrokeCount (stats (handleKeyDown now k h)) = (keystrokeCount (stats h) + 1)%nat /\
     mouseCount (stats (handleKeyDown now k h)) = mouseCount (stats h) /\
     exists key ts,
       eventBuffer (handleKeyDown now k h) = eventBuffer h ++ [keystroke key down ts]) /\
    (stats (handleKeyUp now k h) = stats h /\
     exists key ts,
       eventBuffer (handleKeyUp now k h) = eventBuffer h ++ [keystroke key up ts]) /\
    (mouseCount (stats (handleMouseClick now m h)) = (mouseCount (stats h) + 1)%nat /\
     keystrokeCount (stats (handleMouseClick now m h)) = keystrokeCount (stats h) /\
     exists ts,
       eventBuffer (handleMouseClick now m h)
         = eventBuffer h ++ [mouse (clientX m) (clientY m) click ts]) /\
    (stats (handleKeyDown now s h) = stats h /\ stats (handleKeyUp now s h) = stats h) /\
    (mouseCount (stats (handleMouseMove now_move m h)) = (mouseCount (stats h) + 1)%nat /\
     keystrokeCount (stats (handleMouseMove now_move m h)) = keystrokeCount (stats h) /\
     exists ts,
       eventBuffer (handleMouseMove now_move m h)
         = eventBuffer h ++ [mouse (clientX m) (clientY m) move ts]) /\
    handleMouseMove now_early m h = h.
Proof.
  intros now now_move now_early k s m h Hc Hk Hs Hm He.
  unfold handleKeyDown, handleKeyUp, handleMouseMove, handleMouseClick.
  rewrite Hc, Hk, Hs. cbn [negb].
  assert (Ht : (now_move - lastMouseMove h <? MOUSE_THROTTLE) = false)
    by (apply Z.ltb_ge; exact Hm).
  assert (Ht' : (now_early - lastMouseMove h <? MOUSE_THROTTLE) = true)
    by (apply Z.ltb_lt; exact He).
  rewrite Ht, Ht'. cbn. repeat split; eauto.
Qed.

Lemma counters_follow_events_witness :
  (keystrokeCount (stats (handleKeyDown 2000 Sample.text_key Sample.capturing))
     = (keystrokeCount (stats Sample.capturing) + 1)%nat /\
   mouseCount (stats (handleKeyDown 2000 Sample.text_key Sample.capturing))
     = mouseCount (stats Sample.capturing) /\
   exists key ts,
     eventBuffer (handleKeyDown 2000 Sample.text_key Sample.capturing)
       = eventBuffer Sample.capturing ++ [keystroke key down ts]) /\
  (stats (handleKeyUp 2000 Sample.text_key Sample.capturing) = stats Sample.capturing /\
   exists key ts,
     eventBuffer (handleKeyUp 2000 Sample.text_key Sample.capturing)
       = eventBuffer Sample.capturing ++ [keystroke key up ts]) /\
  (mouseCount (stats (handleMouseClick 2000 Sample.pointer Sample.capturing))
     = (mouseCount (stats Sample.capturing) + 1)%nat /\
   keystrokeCount (stats (handleMouseClick 2000 Sample.pointer Sample.capturing))
     = keystrokeCount (stats Sample.capturing) /\
   exists ts,
     eventBuffer (handleMouseClick 2000 Sample.pointer Sample.capturing)
       = eventBuffer Sample.capturing
           ++ [mouse (clientX Sample.pointer) (clientY Sample.pointer) click ts]) /\
  (stats (handleKeyDown 2000 Sample.password_key Sample.capturing) = stats Sample.capturing /\
   stats (handleKeyUp 2000 Sample.password_key Sample.capturing) = stats Sample.capturing) /\
  (mouseCount (stats (handleMouseMove 2100 Sample.pointer Sample.capturing))
     = (mouseCount (stats Sample.capturing) + 1)%nat /\
   keystrokeCount (stats (handleMouseMove 2100 Sample.pointer Sample.capturing))
     = keystrokeCount (stats Sample.capturing) /\
   exists ts,
     eventBuffer (handleMouseMove 2100 Sample.pointer Sample.capturing)
       = eventBuffer Sample.capturing
           ++ [mouse (clientX Sample.pointer) (clientY Sample.pointer) move ts]) /\
  handleMouseMove 50 Sample.pointer Sample.capturing = Sample.capturing.
Proof.
  apply (counters_follow_events 2000 2100 50 Sample.text_key Sample.password_key
                                Sample.pointer Sample.capturing).
  - reflexivity.
  - reflexivity.
  - reflexivity.
  - vm_compute. discriminate.
  - reflexivity.
Defined.

Lemma rejected_only_logs e h :
  sendEventBatch_settled (JS.rejected e) h
    = console_write (log_error "Error sending event batch:" e) h.
Proof. reflexivity. Qed.

(** C8. When the submission of a batch is rejected (network error or
    non-success response), the continuation only writes to the console:
    the events taken by the flush are not put back (the buffer is empty
    when the rejection follows the flush directly), the counters including
    batchesSent are unchanged, no trust update is passed on, and the
    Dashboard (score, status, alerts, toast, modal, session) is left
    untouched.  In whatever state the rejection arrives, the console
    entry is the only change. *)
Theorem failed_batch_is_dropped :
  forall (now : Z) (e : JS.Error) (token sessionId : JS.value string)
         (h h1 : Hook) (sub : Submission) (d : Dashboard.World),
    sendEventBatch token sessionId h = (h1, Some sub) ->
    let a := App.batchSettled now (JS.rejected e) (App.mkState h1 d) in
    eventBuffer (App.hook a) = [] /\
    stats (App.hook a) = stats h /\
    updateTrustScore (App.hook a) = updateTrustScore h /\
    console (App.hook a)
      = console h ++ [log_error "Error sending event batch:" e] /\
    App.dash a = d /\
    forall (h2 : Hook) (d2 : Dashboard.World),
      App.batchSettled now (JS.rejected e) (App.mkState h2 d2)
        = App.mkState
            (console_write (log_error "Error sending event batch:" e) h2) d2.
Proof.
  intros now e token sessionId h h1 sub d Hflush a. subst a.
  assert (Hany : forall h2 d2,
             App.batchSettled now (JS.rejected e) (App.mkState h2 d2)
             = App.mkState
                 (console_write (log_error "Error sending event batch:" e) h2) d2).
  { intros h2 d2. unfold App.batchSettled. rewrite rejected_only_logs. cbn.
    now rewrite Nat.eqb_refl. }
  unfold sendEventBatch in Hflush.
  destruct (List.length (eventBuffer h) =? 0)%nat; [discriminate|].
  destruct (negb (JS.truthy_string token) || negb (JS.truthy_string sessionId));
    [discriminate|].
  injection Hflush as <- _.
  rewrite Hany. cbn. repeat split. exact Hany.
Qed.

Lemma failed_batch_is_dropped_witness :
  exists h1 sub,
    sendEventBatch (JS.def "tok-1"%string) (JS.def "sess-1"%string) Sample.capturing
      = (h1, Some sub) /\
    sub_events sub = eventBuffer Sample.capturing /\
    let a := App.batchSettled 6000 (JS.rejected Sample.network_error)
                              (App.mkState h1 Sample.dashboard) in
    eventBuffer (App.hook a) = [] /\
    stats (App.hook a) = stats Sample.capturing /\
    updateTrustScore (App.hook a) = updateTrustScore Sample.capturing /\
    console (App.hook a)
      = console Sample.capturing
          ++ [log_error "Error sending event batch:" Sample.network_error] /\
    App.dash a = Sample.dashboard /\
    forall (h2 : Hook) (d2 : Dashboard.World),
      App.batchSettled 6000 (JS.rejected Sample.network_error) (App.mkState h2 d2)
        = App.mkState
            (console_write
               (log_error "Error sending event batch:" Sample.network_error) h2)
            d2.
Proof.
  eexists _, _. split; [reflexivity|]. split; [reflexivity|].
  eapply (failed_batch_is_dropped 6000 Sample.network_error
            (JS.def "tok-1"%string) (JS.def "sess-1"%string) Sample.capturing).
  reflexivity.
Defined.

End CaptureFacts.

(** ** The policy reactor *)

Module PolicyFacts.
Import Dashboard.

Lemma In_enqueue t x q : In x (enqueue t q) <-> x = t \/ In x q.
Proof.
  induction q as [|y q IH]; cbn.
  - intuition congruence.
  - destruct (due y <=? due t); cbn; rewrite ?IH; intuition congruence.
Qed.

Lemma filter_enqueue f t q :
  List.length (filter f (enqueue t q))
    = ((if f t then 1 else 0) + List.length (filter f q))%nat.
Proof.
  induction q as [|y q IH]; cbn.
  - now destruct (f t).
  - destruct (due y <=? due t); cbn.
    + destruct (f y); cbn; rewrite IH; destruct (f t); lia.
    + destruct (f t), (f y); reflexivity.
Qed.

Lemma logouts_fire t q : forall w,
  logouts (fire t q w) = logouts w ++ map due (filter is_teardown (due_by t q)).
Proof.
  induction q as [|x q IH]; intros w; cbn.
  - now rewrite app_nil_r.
  - destruct (due x <=? t); cbn.
    + rewrite IH. destruct x as [d [tok|]]; cbn.
      * now rewrite <- app_assoc.
      * reflexivity.
    + now rewrite app_nil_r.
Qed.

(** Without an [action] and without the [require_stepup] flag,
    [applyPolicy] stops after its two setters. *)
Lemma applyPolicy_plain r now rs score status w :
  JS.truthy_bool rs = false ->
  applyPolicy r now JS.undefined rs score status w
    = setTrustStatus (status ?? r_trustStatus r)
        (setTrustScore (score ?? r_trustScore r) w).
Proof. intros H. unfold applyPolicy. cbn. now rewrite H. Qed.

(** C1, as stated, fails: snapshots without [action] at scores 10, 30 and
    55, where the table of the specification says terminate, stepup and
    monitor, schedule no teardown, open no modal and add no alert. *)
Lemma no_fallback_from_score :
  (PolicyTable.fallback (10 # 1) = PolicyTable.terminate /\
   teardowns (pollTick 10000 (Sample.snapshot (10 # 1) "CRITICAL") Sample.dashboard)
     = [] /\
   alerts (pollTick 10000 (Sample.snapshot (10 # 1) "CRITICAL") Sample.dashboard)
     = []) /\
  (PolicyTable.fallback (30 # 1) = PolicyTable.stepup /\
   showStepUp (pollTick 10000 (Sample.snapshot (30 # 1) "SUSPICIOUS") Sample.dashboard)
     = false) /\
  (PolicyTable.fallback (55 # 1) = PolicyTable.monitor /\
   alerts (pollTick 10000 (Sample.snapshot (55 # 1) "MONITOR") Sample.dashboard)
     = []).
Proof. repeat split. Qed.

(** The score of a snapshot without [action] reaches nothing but the
    state cell [trustScore]. *)
Lemma no_action_score_irrelevant r now rs score score' status w v :
  setTrustScore v (applyPolicy r now JS.undefined rs score status w)
    = setTrustScore v (applyPolicy r now JS.undefined rs score' status w).
Proof.
  unfold applyPolicy. cbn [JS.is_string orb].
  destruct (JS.truthy_bool rs), (r_showStepUp r); reflexivity.
Qed.

(** C1, amended. For a snapshot without an [action] field the score
    selects nothing: two such snapshots that differ in the score only are
    treated alike, apart from the score stored for display.  When the
    [require_stepup] flag is not set either, the reactor does at every
    score what the table calls continue: it stores the score and the
    status (keeping the render's value for a missing one) and leaves the
    modal, the alerts, the toast, the timers and the session as they
    were. *)
Theorem no_action_means_continue :
  forall (r : Render) (now : Z) (requireStepup : JS.value bool)
         (score : JS.value Q) (status : JS.value string) (w : World),
    JS.truthy_bool requireStepup = false ->
    let w' := applyPolicy r now JS.undefined requireStepup score status w in
    trustScore w' = score ?? r_trustScore r /\
    trustStatus w' = status ?? r_trustStatus r /\
    showStepUp w' = showStepUp w /\
    alerts w' = alerts w /\
    toast w' = toast w /\
    timers w' = timers w /\
    logouts w' = logouts w /\
    auth w' = auth w /\
    forall (flag : JS.value bool) (score' : JS.value Q) (v : JS.value Q),
      setTrustScore v (applyPolicy r now JS.undefined flag score status w)
        = setTrustScore v (applyPolicy r now JS.undefined flag score' status w).
Proof.
  intros r now rs score status w H w'. subst w'.
  rewrite applyPolicy_plain by assumption. cbn.
  repeat split. intros. apply no_action_score_irrelevant.
Qed.

Lemma no_action_means_continue_witness :
  let w' := applyPolicy (render Sample.dashboard) 10000 JS.undefined JS.undefined
                        (JS.def (10 # 1)) (JS.def "CRITICAL"%string)
                        Sample.dashboard in
  trustScore w' = JS.def (10 # 1) /\
  trustStatus w' = JS.def "CRITICAL"%string /\
  showStepUp w' = false /\
  alerts w' = [] /\
  toast w' = None /\
  timers w' = [] /\
  logouts w' = [] /\
  auth w' = Sample.session /\
  forall (flag : JS.value bool) (score' : JS.value Q) (v : JS.value Q),
    setTrustScore v
      (applyPolicy (render Sample.dashboard) 10000 JS.undefined flag
                   (JS.def (10 # 1)) (JS.def "CRITICAL"%string) Sample.dashboard)
      = setTrustScore v
          (applyPolicy (render Sample.dashboard) 10000 JS.undefined flag
                       score' (JS.def "CRITICAL"%string) Sample.dashboard).
Proof.
  apply (no_action_means_continue (render Sample.dashboard) 10000 JS.undefined
           (JS.def (10 # 1)) (JS.def "CRITICAL"%string) Sample.dashboard).
  reflexivity.
Defined.

(** C2, as stated, fails: a second terminate verdict one second after the
    first leaves two teardowns pending, due at 14000 and 15000, and the
    clock reaching 15000 invokes logout twice. *)
Lemma second_terminate_schedules_again :
  map due (teardowns Sample.terminate_once) = [14000] /\
  map due (teardowns Sample.terminate_twice) = [14000; 15000] /\
  logouts (advance 15000 Sample.terminate_twice) = [14000; 15000].
Proof. repeat split. Qed.

(** C2, amended. Every terminate verdict schedules one more teardown, due
    TERMINATE_DELAY_MS after that verdict, and leaves the timers already
    pending in place; so a second terminate verdict while a teardown is
    scheduled adds a second one and does not restart the first.  When the
    clock advances, logout is invoked once for each teardown that has come
    due, at that teardown's own due time. *)
Theorem terminate_schedules_one_more :
  forall (r : Render) (now t : Z) (requireStepup : JS.value bool)
         (score : JS.value Q) (status : JS.value string) (w : World),
    let w' := applyPolicy r now (JS.def "terminate"%string) requireStepup
                          score status w in
    List.length (teardowns w') = S (List.length (teardowns w)) /\
    In (mkTimer (now + TERMINATE_DELAY_MS) (cb_logout (r_token r))) (teardowns w') /\
    (forall x, In x (timers w) -> In x (timers w')) /\
    logouts (advance t w')
      = logouts w ++ map due (filter is_teardown (due_by t (timers w'))).
Proof.
  intros r now t rs score status w w'.
  assert (Htm : timers w'
    = enqueue (mkTimer (now + TERMINATE_DELAY_MS) (cb_logout (r_token r)))
              (enqueue (mkTimer (now + TOAST_MS) cb_clear_toast) (timers w)))
    by reflexivity.
  assert (Hlo : logouts w' = logouts w) by reflexivity.
  unfold teardowns, advance. rewrite logouts_fire, Hlo, Htm.
  repeat split.
  - now rewrite !filter_enqueue.
  - apply filter_In. split; [|reflexivity]. apply In_enqueue. now left.
  - intros x Hx. apply In_enqueue. right. apply In_enqueue. now right.
Qed.

(** With the modal open in the render that created it, [applyPolicy]
    does nothing for a stepup verdict beyond storing score and status. *)
Lemma stepup_guard r now action rs score status w :
  JS.is_string action "terminate" = false ->
  JS.is_string action "stepup" || JS.truthy_bool rs = true ->
  r_showStepUp r = true ->
  applyPolicy r now action rs score status w
    = setTrustStatus (status ?? r_trustStatus r)
        (setTrustScore (score ?? r_trustScore r) w).
Proof.
  intros Ht Hs Hr. unfold applyPolicy. now rewrite Ht, Hs, Hr.
Qed.

(** The refresh button uses the render on screen, so there the guard
    sees the open modal. *)
Lemma refresh_respects_open_modal now data w :
  showStepUp w = true ->
  action data = JS.def "stepup"%string ->
  alerts (onRefresh now (JS.resolved data) w) = alerts w /\
  showStepUp (onRefresh now (JS.resolved data) w) = true /\
  toast (onRefresh now (JS.resolved data) w) = toast w.
Proof.
  intros Hopen Ha. unfold onRefresh, refreshTrustScore.
  rewrite stepup_guard; rewrite ?Ha; cbn; auto.
Qed.

(** The polling interval keeps the closure of the first render for as
    long as it exists. *)
Lemma poller_step a w e :
  (poller w = None \/ poller w = poller (mount a)) ->
  poller (step w e) = None \/ poller (step w e) = poller (mount a).
Proof.
  intros H.
  assert (Hap : forall r now ac rs sc st, 
             poller (applyPolicy r now ac rs sc st w) = poller w).
  { intros. unfold applyPolicy.
    repeat match goal with |- context [if ?b then _ else _] => destruct b end;
      reflexivity. }
  assert (Hfire : forall t q w0,
             (poller w0 = None \/ poller w0 = poller (mount a)) ->
             poller (fire t q w0) = None \/ poller (fire t q w0) = poller (mount a)).
  { intros t q. induction q as [|x q IH]; intros w0 H0; cbn; auto.
    destruct (due x <=? t); cbn; auto.
    apply IH. destruct (callback x); cbn; auto. }
  destruct e; cbn.
  - unfold pollTick. destruct (poller w) eqn:Hp; auto.
    destruct o; cbn; rewrite ?Hap, ?Hp; auto.
  - unfold onRefresh. destruct o; cbn; rewrite ?Hap; auto.
  - unfold onUpdateTrustScore. destruct (Capture.score u); rewrite ?Hap; auto.
  - auto.
  - unfold onCancel. destruct (showStepUp w); cbn; auto.
  - apply Hfire, H.
Qed.

Lemma poller_run a es : forall w,
  (poller w = None \/ poller w = poller (mount a)) ->
  poller (run es w) = None \/ poller (run es w) = poller (mount a).
Proof.
  induction es as [|e es IH]; intros w H; cbn; auto.
  apply IH, poller_step, H.
Qed.

(** Whatever happened since the mount, and whether or not the modal is
    open, a polled stepup verdict adds a step-up alert on top of the
    list. *)
Lemma polled_stepup_always_alerts a es now data :
  let w := run es (mount a) in
  poller w <> None ->
  action data = JS.def "stepup"%string ->
  alerts (pollTick now (JS.resolved data) w)
    = firstn 20
        (mkAlert now "⚠️ Suspicious behaviour — step-up authentication required"
                 "warning" now :: alerts w).
Proof.
  intros w Hp Ha.
  destruct (poller_run a es (mount a)) as [H|H]; [now right| |].
  - contradiction.
  - unfold pollTick. fold w in H. rewrite H. cbn. unfold applyPolicy.
    rewrite Ha. reflexivity.
Qed.

(** C7 at the failing input: two polls ten seconds apart both answer
    [stepup]; the second finds the modal open, leaves one modal open, and
    still adds a second step-up alert and shows the toast again. *)
Theorem second_polled_stepup_adds_alert :
  showStepUp Sample.stepup_once = true /\
  map type (alerts Sample.stepup_once) = ["warning"%string] /\
  showStepUp Sample.stepup_twice = true /\
  map type (alerts Sample.stepup_twice) = ["warning"%string; "warning"%string] /\
  map id (alerts Sample.stepup_twice) = [20000; 10000] /\
  map due (timers Sample.stepup_twice) = [13000; 23000].
Proof. repeat split. Qed.

End PolicyFacts.

(** ** The score on display *)

Module DisplayFacts.

Local Open Scope Q_scope.

Lemma floor_nonneg x : (0 <= Qfloor x)%Z <-> 0 <= x.
Proof.
  split; intros H.
  - apply Qle_trans with (inject_Z (Qfloor x)); [|apply Qfloor_le].
    change 0 with (inject_Z 0). now rewrite <- Zle_Qle.
  - rewrite <- (Qfloor_Z 0). now apply Qfloor_resp_le.
Qed.

Lemma floor_at_most x (n : Z) : (Qfloor x <= n)%Z <-> x < inject_Z (n + 1).
Proof.
  split; intros H.
  - apply Qlt_le_trans with (inject_Z (Qfloor x + 1)); [apply Qlt_floor|].
    rewrite <- Zle_Qle. lia.
  - destruct (Z_le_gt_dec (Qfloor x) n) as [|Hgt]; [assumption|exfalso].
    apply (Qlt_irrefl x).
    apply Qlt_le_trans with (inject_Z (n + 1)); [assumption|].
    apply Qle_trans with (inject_Z (Qfloor x)); [|apply Qfloor_le].
    rewrite <- Zle_Qle. lia.
Qed.

Lemma round_in_range q :
  (0 <= JS.Math_round q <= 100)%Z <-> - (1 # 2) <= q /\ q < 201 # 2.
Proof.
  unfold JS.Math_round. rewrite floor_nonneg, floor_at_most.
  change (inject_Z (100 + 1)) with (101 # 1).
  destruct q as [a b]. unfold Qle, Qlt, Qplus. cbn.
  rewrite ?Pos2Z.inj_mul. lia.
Qed.

Lemma trustScore_applyPolicy r now action rs score status w :
  Dashboard.trustScore (Dashboard.applyPolicy r now action rs score status w)
    = score ?? Dashboard.r_trustScore r.
Proof.
  unfold Dashboard.applyPolicy.
  repeat match goal with |- context [if ?b then _ else _] => destruct b end;
    reflexivity.
Qed.

(** C6, as stated, fails: a polled score of 150 is shown as 150 by the
    card and written as 150 by the script controller, and a score of -5
    is shown as -5. *)
Lemma score_shown_unclamped :
  TrustScoreCard.shown
    (Dashboard.pollTick 10000 (Sample.snapshot (150 # 1) "OK") Sample.dashboard)
    = Some 150%Z /\
  LegacyDashboard.trustScoreValue
    (LegacyDashboard.updateTrustScore (150 # 1) (JS.def "OK"%string)
       (LegacyDashboard.mkPage 100 [] "" "" []))
    = 150%Z /\
  TrustScoreCard.trust_score_value (- (5 # 1)) = (-5)%Z.
Proof. repeat split. Qed.

(** C6, amended. For every numeric score received in a snapshot, the
    score shown (by the card after the snapshot is applied, and by the
    script controller) is the score rounded to the nearest integer, with
    no clamping: the number shown lies in [0,100] exactly when
    -0.5 <= score < 100.5. *)
Theorem score_shown_rounded :
  forall (q : Q) (r : Dashboard.Render) (now : Z) (action : JS.value string)
         (rs : JS.value bool) (status : JS.value string)
         (w : Dashboard.World) (p : LegacyDashboard.Page),
    TrustScoreCard.shown
      (Dashboard.applyPolicy r now action rs (JS.def q) status w)
      = Some (JS.Math_round q) /\
    LegacyDashboard.trustScoreValue (LegacyDashboard.updateTrustScore q status p)
      = JS.Math_round q /\
    ((0 <= JS.Math_round q <= 100)%Z <-> - (1 # 2) <= q /\ q < 201 # 2).
Proof.
  intros q r now action rs status w p. repeat apply conj.
  - unfold TrustScoreCard.shown. now rewrite trustScore_applyPolicy.
  - unfold LegacyDashboard.updateTrustScore.
    repeat match goal with |- context [if ?b then _ else _] => destruct b end;
      reflexivity.
  - apply round_in_range.
  - apply round_in_range.
Qed.

End DisplayFacts.

(** ** base64url transcoding *)

Module Base64Facts.
Import Base64.

Local Open Scope N_scope.
Local Open Scope char_scope.

(** Lists taken three elements at a time. *)
Lemma by_threes {A} (P : list A -> Prop) :
  P [] ->
  (forall a, P [a]) ->
  (forall a b, P [a; b]) ->
  (forall a b c l, P l -> P (a :: b :: c :: l)) ->
  forall l, P l.
Proof.
  intros H0 H1 H2 H3 l.
  assert (H : P l /\ (forall a, P (a :: l)) /\ (forall a b, P (a :: b :: l))).
  { induction l as [|x l (IH0 & IH1 & IH2)]; auto. }
  apply H.
Qed.

Lemma groups_small s : Forall (fun n => n < 64) (groups s).
Proof.
  induction s as [|a|a b|a b c s IH] using by_threes; cbn [groups].
  - constructor.
  - repeat constructor; byte_arith.
  - repeat constructor; byte_arith.
  - repeat (constructor; [byte_arith|]). exact IH.
Qed.

Lemma ascii_of_N_code a n : n = N_of_ascii a -> ascii_of_N n = a.
Proof. intros ->. apply ascii_N_embedding. Qed.

Lemma decode_groups s : decode (groups s) = s.
Proof.
  induction s as [|a|a b|a b c s IH] using by_threes; cbn [groups decode].
  - reflexivity.
  - f_equal. apply ascii_of_N_code. byte_arith.
  - f_equal; [apply ascii_of_N_code; byte_arith|].
    f_equal. apply ascii_of_N_code. byte_arith.
  - rewrite IH.
    f_equal; [apply ascii_of_N_code; byte_arith|].
    f_equal; [apply ascii_of_N_code; byte_arith|].
    f_equal. apply ascii_of_N_code. byte_arith.
Qed.

Lemma length_groups_mod4 s : (Nat.modulo (List.length (groups s)) 4 =? 1)%nat = false.
Proof.
  induction s as [|a|a b|a b c s IH] using by_threes; cbn [groups List.length];
    try reflexivity.
  replace (S (S (S (S (List.length (groups s))))))
    with (List.length (groups s) + 1 * 4)%nat by lia.
  now rewrite Nat.Div0.mod_add.
Qed.

(** The characters of the alphabet, one by one: none is whitespace or the
    padding character, before and after the url substitution; the
    substitution is undone by its reverse; each has its own index. *)
Lemma alphabet_checked :
  forallb
    (fun n =>
       let c := char_of n in
       let u := if Ascii.eqb (if Ascii.eqb c "+" then "-" else c) "/" then "_"
                else if Ascii.eqb c "+" then "-" else c in
       negb (is_whitespace c) && negb (Ascii.eqb c "=") && negb (Ascii.eqb u "=")
       && Ascii.eqb
            (if Ascii.eqb (if Ascii.eqb u "-" then "+" else u) "_" then "/"
             else if Ascii.eqb u "-" then "+" else u) c
       && match index_of c with Some i => N.eqb i n | None => false end)
    (map N.of_nat (seq 0 64)) = true.
Proof. vm_compute. reflexivity. Qed.

Lemma alphabet_char n :
  n < 64 ->
  is_whitespace (char_of n) = false /\
  Ascii.eqb (char_of n) "=" = false /\
  remove_all "=" (replace_all "/" "_" (replace_all "+" "-" [char_of n]))
    = replace_all "/" "_" (replace_all "+" "-" [char_of n]) /\
  replace_all "_" "/"
    (replace_all "-" "+" (replace_all "/" "_" (replace_all "+" "-" [char_of n])))
    = [char_of n] /\
  index_of (char_of n) = Some n.
Proof.
  intros Hn.
  pose proof (proj1 (forallb_forall _ _) alphabet_checked n) as H.
  cbv beta zeta in H.
  assert (Hin : In n (map N.of_nat (seq 0 64))).
  { rewrite <- (N2Nat.id n). apply in_map, in_seq. lia. }
  specialize (H Hin).
  repeat (apply andb_prop in H; destruct H as [H ?]).
  repeat match goal with
         | H : negb _ = true |- _ => apply negb_true_iff in H
         end.
  cbn [replace_all remove_all map filter].
  repeat match goal with
         | H : Ascii.eqb _ _ = _ |- _ => rewrite H
         end.
  cbn [negb].
  repeat split; auto.
  - f_equal. now apply Ascii.eqb_eq.
  - destruct (index_of (char_of n)) as [i|]; [|discriminate].
    f_equal. now apply N.eqb_eq.
Qed.

Lemma padding_removed s :
  remove_all "=" (replace_all "/" "_" (replace_all "+" "-" (padding s))) = [].
Proof.
  unfold padding.
  destruct (Nat.modulo (List.length s) 3) as [|[|[|k]]]; reflexivity.
Qed.

(** The url form of a run of groups, and its way back to the alphabet. *)
Lemma url_groups g :
  Forall (fun n => n < 64) g ->
  remove_all "=" (replace_all "/" "_" (replace_all "+" "-" (map char_of g)))
    = replace_all "/" "_" (replace_all "+" "-" (map char_of g)) /\
  replace_all "_" "/"
    (replace_all "-" "+"
       (replace_all "/" "_" (replace_all "+" "-" (map char_of g))))
    = map char_of g.
Proof.
  induction 1 as [|n g Hn _ [IH1 IH2]]; [split; reflexivity|].
  destruct (alphabet_char n Hn) as (_ & _ & H1 & H2 & _).
  change (map char_of (n :: g)) with ([char_of n] ++ map char_of g).
  unfold replace_all, remove_all in *.
  rewrite !map_app, filter_app, H1, IH1. split; [reflexivity|].
  now rewrite H2, IH2.
Qed.

Lemma atob_groups g :
  Forall (fun n => n < 64) g ->
  (Nat.modulo (List.length g) 4 =? 1)%nat = false ->
  atob (map char_of g) = Some (decode g).
Proof.
  intros Hg Hlen.
  assert (Hws : filter (fun c => negb (is_whitespace c)) (map char_of g)
                = map char_of g).
  { clear Hlen. induction Hg as [|n g Hn _ IH]; [reflexivity|]. cbn [map filter].
    destruct (alphabet_char n Hn) as (-> & _). cbn. now rewrite IH. }
  assert (Hpad : strip_padding (map char_of g) = map char_of g).
  { clear Hlen Hws. unfold strip_padding. rewrite <- map_rev.
    assert (Hr : Forall (fun n => n < 64) (rev g))
      by (apply Forall_forall; intros x Hx; apply in_rev in Hx;
          revert x Hx; now apply Forall_forall).
    destruct Hr as [|n r Hn _]; [reflexivity|]. cbn [map].
    destruct (alphabet_char n Hn) as (_ & He & _).
    destruct (char_of n) as [[] [] [] [] [] [] [] []]; try reflexivity.
    discriminate He. }
  assert (Hidx : indices (map char_of g) = Some g).
  { clear Hlen Hws Hpad. induction Hg as [|n g Hn _ IH]; [reflexivity|].
    cbn [map indices].
    destruct (alphabet_char n Hn) as (_ & _ & _ & _ & ->).
    now rewrite IH. }
  unfold atob. rewrite Hws.
  assert (Hl : List.length (map char_of g) = List.length g) by apply length_map.
  destruct (Nat.modulo (List.length (map char_of g)) 4 =? 0)%nat;
    rewrite ?Hpad, Hl, Hlen, Hidx; reflexivity.
Qed.

(** C10. Decoding the base64url encoding of a byte sequence succeeds and
    gives back exactly those bytes. *)
Theorem base64url_roundtrip :
  forall b : list byte,
    base64ToArrayBuffer (arrayBufferToBase64 b) = Some b.
Proof.
  intros b. unfold base64ToArrayBuffer, arrayBufferToBase64, btoa.
  set (s := map ascii_of_byte b).
  pose proof (groups_small s) as Hg.
  destruct (url_groups (groups s) Hg) as [H1 H2].
  unfold replace_all, remove_all in *.
  rewrite !map_app, filter_app.
  fold (replace_all "+" "-" (padding s)).
  fold (replace_all "/" "_" (replace_all "+" "-" (padding s))).
  fold (remove_all "=" (replace_all "/" "_" (replace_all "+" "-" (padding s)))).
  rewrite padding_removed, app_nil_r, H1, H2.
  rewrite (atob_groups _ Hg (length_groups_mod4 s)), decode_groups.
  subst s. rewrite map_map. f_equal.
  rewrite <- (map_id b) at 2. apply map_ext. apply byte_of_ascii_of_byte.
Qed.

End Base64Facts.

(** ** Runs of the capture hook *)

Module CaptureRunFacts.
Import Capture CaptureRun.

Lemma all_events_buffered subs h :
  all_events (mkTrace h subs) = List.concat (map sub_events subs) ++ eventBuffer h.
Proof. reflexivity. Qed.

(** Handing the buffer over moves events from the buffer to the batches
    and changes nothing else of what was recorded. *)
Lemma flush_conserves token sessionId t :
  all_events (handed t (sendEventBatch token sessionId (hook t))) = all_events t /\
  stats (hook (handed t (sendEventBatch token sessionId (hook t)))) = stats (hook t) /\
  lastMouseMove (hook (handed t (sendEventBatch token sessionId (hook t))))
    = lastMouseMove (hook t).
Proof.
  unfold sendEventBatch, handed, all_events.
  destruct (List.length (eventBuffer (hook t)) =? 0)%nat; [now cbn|].
  destruct (negb (JS.truthy_string token) || negb (JS.truthy_string sessionId));
    [now cbn|].
  cbn. rewrite map_app, concat_app. cbn. now rewrite !app_nil_r.
Qed.

Lemma stop_conserves token sessionId t :
  all_events (handed t (stopCapture token sessionId (hook t))) = all_events t /\
  stats (hook (handed t (stopCapture token sessionId (hook t)))) = stats (hook t) /\
  lastMouseMove (hook (handed t (stopCapture token sessionId (hook t))))
    = lastMouseMove (hook t).
Proof.
  unfold stopCapture.
  destruct (negb (isCapturing (hook t))); [now cbn|].
  cbv zeta.
  destruct (0 <? List.length (eventBuffer (set_isCapturing false (hook t))))%nat.
  - apply (flush_conserves token sessionId
             (mkTrace (set_isCapturing false (hook t)) (submitted t))).
  - now cbn.
Qed.

(** What a step adds to the record, if anything. *)
Lemma step_records token sessionId t i :
  let t' := step token sessionId t i in
  (all_events t' = all_events t /\
   keystrokeCount (stats (hook t')) = keystrokeCount (stats (hook t)) /\
   mouseCount (stats (hook t')) = mouseCount (stats (hook t)) /\
   lastMouseMove (hook t') = lastMouseMove (hook t))
  \/
  (exists e,
     all_events t' = all_events t ++ [e] /\
     keystrokeCount (stats (hook t'))
       = (keystrokeCount (stats (hook t)) + if is_keydown e then 1 else 0)%nat /\
     mouseCount (stats (hook t'))
       = (mouseCount (stats (hook t)) + if is_mouse e then 1 else 0)%nat /\
     ((move_stamps [e] = [] /\ lastMouseMove (hook t') = lastMouseMove (hook t))
      \/
      (exists now, move_stamps [e] = [seconds now] /\
                   MOUSE_THROTTLE <= now - lastMouseMove (hook t) /\
                   lastMouseMove (hook t') = now))).
Proof.
  destruct t as [h subs]. destruct i; cbn [step hook submitted].
  - left. unfold startCapture. destruct (isCapturing h); now cbn.
  - left. destruct (stop_conserves token sessionId (mkTrace h subs)) as (H1 & H2 & H3).
    cbn [hook] in *. now rewrite H1, H2, H3.
  - unfold handleKeyDown.
    destruct (negb (isCapturing h)); [now left|].
    destruct (sensitive e); [now left|].
    right. exists (keystroke (key_name e) down (seconds now)).
    rewrite !all_events_buffered. cbn.
    rewrite app_assoc, ?Nat.add_0_r. repeat split. now left.
  - unfold handleKeyUp.
    destruct (negb (isCapturing h)); [now left|].
    destruct (sensitive e); [now left|].
    right. exists (keystroke (key_name e) up (seconds now)).
    rewrite !all_events_buffered. cbn.
    rewrite app_assoc, ?Nat.add_0_r. repeat split. now left.
  - unfold handleMouseMove.
    destruct (negb (isCapturing h)); [now left|].
    destruct (now - lastMouseMove h <? MOUSE_THROTTLE) eqn:Hthr; [now left|].
    right. exists (mouse (clientX e) (clientY e) move (seconds now)).
    rewrite !all_events_buffered. cbn.
    rewrite app_assoc, ?Nat.add_0_r. repeat split.
    right. exists now. repeat split. now apply Z.ltb_ge.
  - unfold handleMouseClick.
    destruct (negb (isCapturing h)); [now left|].
    right. exists (mouse (clientX e) (clientY e) click (seconds now)).
    rewrite !all_events_buffered. cbn.
    rewrite app_assoc, ?Nat.add_0_r. repeat split. now left.
  - left. destruct (flush_conserves token sessionId (mkTrace h subs)) as (H1 & H2 & H3).
    cbn [hook] in *. now rewrite H1, H2, H3.
  - left. destruct o as [result|err]; cbn.
    + destruct (trust_score result); now cbn.
    + now cbn.
Qed.

Lemma run_snoc token sessionId inputs i :
  run token sessionId (inputs ++ [i])
    = step token sessionId (run token sessionId inputs) i.
Proof. unfold run. now rewrite fold_left_app. Qed.

(** The two input counters always agree with what was recorded: at every
    point of every run, keystrokeCount is the number of key-down records
    and mouseCount the number of mouse records among all events recorded
    so far, whether already handed over in a batch or still buffered. *)
Theorem counters_match_record :
  forall (token sessionId : JS.value string) (inputs : list Input),
    keystrokeCount (stats (hook (run token sessionId inputs)))
      = List.length (filter is_keydown (all_events (run token sessionId inputs))) /\
    mouseCount (stats (hook (run token sessionId inputs)))
      = List.length (filter is_mouse (all_events (run token sessionId inputs))).
Proof.
  intros token sessionId inputs.
  induction inputs as [|i inputs IH] using rev_ind; [split; reflexivity|].
  rewrite run_snoc. destruct IH as [IHk IHm].
  destruct (step_records token sessionId (run token sessionId inputs) i)
    as [(He & Hk & Hm & _)|(e & He & Hk & Hm & _)];
    rewrite He, Hk, Hm, IHk, IHm.
  - split; reflexivity.
  - rewrite !filter_app, !length_app. cbn.
    destruct (is_keydown e), (is_mouse e); cbn; split; reflexivity.
Qed.

Lemma move_stamps_app l1 l2 :
  move_stamps (l1 ++ l2) = move_stamps l1 ++ move_stamps l2.
Proof.
  induction l1 as [|e l1 IH]; [reflexivity|].
  destruct e as [k a ts|x y [] ts]; cbn; now rewrite ?IH.
Qed.

(** What a step does to the throttle clock. *)
Lemma step_clock token sessionId t i :
  match i with
  | in_mousemove now e =>
    if move_recorded now e (hook t)
    then lastMouseMove (hook t) + MOUSE_THROTTLE <= now /\
         lastMouseMove (hook (step token sessionId t i)) = now
    else lastMouseMove (hook (step token sessionId t i)) = lastMouseMove (hook t)
  | _ => lastMouseMove (hook (step token sessionId t i)) = lastMouseMove (hook t)
  end.
Proof.
  destruct t as [h subs]. destruct i; cbn [step hook submitted].
  - unfold startCapture. now destruct (isCapturing h).
  - apply (stop_conserves token sessionId (mkTrace h subs)).
  - unfold handleKeyDown.
    destruct (negb (isCapturing h)); [reflexivity|]. now destruct (sensitive e).
  - unfold handleKeyUp.
    destruct (negb (isCapturing h)); [reflexivity|]. now destruct (sensitive e).
  - unfold move_recorded, handleMouseMove.
    destruct (negb (isCapturing h)); [now rewrite Nat.ltb_irrefl|].
    destruct (now - lastMouseMove h <? MOUSE_THROTTLE) eqn:Hthr;
      [now rewrite Nat.ltb_irrefl|].
    apply Z.ltb_ge in Hthr. cbn -[Nat.ltb Nat.add]. rewrite length_app.
    cbn -[Nat.ltb Nat.add].
    assert (Hlt : (List.length (eventBuffer h) <? List.length (eventBuffer h) + 1)%nat
                  = true) by (apply Nat.ltb_lt; lia).
    rewrite Hlt. split; [lia|reflexivity].
  - unfold handleMouseClick. now destruct (negb (isCapturing h)).
  - apply (flush_conserves token sessionId (mkTrace h subs)).
  - destruct o as [result|err]; cbn; [|reflexivity].
    now destruct (trust_score result).
Qed.

(** What a step adds to the stamps of the recorded moves. *)
Lemma step_stamps token sessionId t i :
  move_stamps (all_events (step token sessionId t i))
    = move_stamps (all_events t)
      ++ map seconds match i with
                     | in_mousemove now e =>
                       if move_recorded now e (hook t) then [now] else []
                     | _ => []
                     end.
Proof.
  destruct t as [h subs]. destruct i; cbn [step hook submitted map];
    rewrite ?app_nil_r.
  - unfold startCapture. now destruct (isCapturing h).
  - pose proof (proj1 (stop_conserves token sessionId (mkTrace h subs))) as H.
    cbn [hook] in H. now rewrite H.
  - unfold handleKeyDown.
    destruct (negb (isCapturing h)); [reflexivity|].
    destruct (sensitive e); [reflexivity|].
    rewrite !all_events_buffered. cbn.
    now rewrite app_assoc, move_stamps_app, app_nil_r.
  - unfold handleKeyUp.
    destruct (negb (isCapturing h)); [reflexivity|].
    destruct (sensitive e); [reflexivity|].
    rewrite !all_events_buffered. cbn.
    now rewrite app_assoc, move_stamps_app, app_nil_r.
  - unfold move_recorded, handleMouseMove.
    destruct (negb (isCapturing h)); [now rewrite Nat.ltb_irrefl, app_nil_r|].
    destruct (now - lastMouseMove h <? MOUSE_THROTTLE);
      [now rewrite Nat.ltb_irrefl, app_nil_r|].
    rewrite !all_events_buffered. cbn -[Nat.ltb Nat.add]. rewrite length_app.
    cbn -[Nat.ltb Nat.add].
    assert (Hlt : (List.length (eventBuffer h) <? List.length (eventBuffer h) + 1)%nat
                  = true) by (apply Nat.ltb_lt; lia).
    rewrite Hlt. now rewrite app_assoc, move_stamps_app.
  - unfold handleMouseClick.
    destruct (negb (isCapturing h)); [reflexivity|].
    rewrite !all_events_buffered. cbn.
    now rewrite app_assoc, move_stamps_app, app_nil_r.
  - pose proof (proj1 (flush_conserves token sessionId (mkTrace h subs))) as H.
    cbn [hook] in H. now rewrite H.
  - destruct o as [result|err]; cbn; [|reflexivity].
    now destruct (trust_score result).
Qed.

Lemma instants_apart token sessionId inputs : forall t,
  apart (move_instants_from token sessionId t inputs) /\
  match move_instants_from token sessionId t inputs with
  | [] => True
  | x :: _ => lastMouseMove (hook t) + MOUSE_THROTTLE <= x
  end.
Proof.
  induction inputs as [|i inputs IH]; intros t; cbn [move_instants_from].
  - split; [constructor|exact I].
  - destruct (IH (step token sessionId t i)) as [Hap Hhd].
    pose proof (step_clock token sessionId t i) as Hc.
    destruct i; cbn [app]; try (rewrite Hc in Hhd; now split).
    destruct (move_recorded now e (hook t)); cbn [app].
    + destruct Hc as [Hgap Hl]. rewrite Hl in Hhd. split; [|exact Hgap].
      destruct (move_instants_from token sessionId
                  (step token sessionId t (in_mousemove now e)) inputs);
        constructor; assumption.
    + rewrite Hc in Hhd. now split.
Qed.

Lemma instants_stamps token sessionId inputs : forall t,
  move_stamps (all_events (fold_left (step token sessionId) inputs t))
    = move_stamps (all_events t)
      ++ map seconds (move_instants_from token sessionId t inputs).
Proof.
  induction inputs as [|i inputs IH]; intros t;
    cbn [fold_left move_instants_from map].
  - now rewrite app_nil_r.
  - now rewrite IH, step_stamps, map_app, app_assoc.
Qed.

(** The throttle holds over the whole record: in every run, each
    recorded mouse move is taken at a clock value (Date.now(), in ms) at
    least MOUSE_THROTTLE = 100 after that of the recorded move before it,
    also across flushes; and the mouse moves in the record, handed over
    or still buffered, are as many as those clock values. *)
Theorem recorded_moves_are_apart :
  forall (token sessionId : JS.value string) (inputs : list Input),
    apart (move_instants token sessionId inputs) /\
    List.length (move_stamps (all_events (run token sessionId inputs)))
      = List.length (move_instants token sessionId inputs).
Proof.
  intros token sessionId inputs. split.
  - apply instants_apart.
  - unfold run, move_instants. rewrite instants_stamps.
    change (move_stamps (all_events (mkTrace initial []))) with (@nil Q).
    cbn [app]. apply length_map.
Qed.

(** Once the capture is stopped, keyboard and mouse events change nothing:
    whatever DOM events arrive, the hook (buffer, counters, throttle
    clock) stays as it is and nothing is handed to the transport. *)
Theorem stopped_hook_ignores_input :
  forall (token sessionId : JS.value string) (inputs : list Input) (t : Trace),
    isCapturing (hook t) = false ->
    forallb is_dom inputs = true ->
    fold_left (step token sessionId) inputs t = t.
Proof.
  intros token sessionId inputs.
  induction inputs as [|i inputs IH]; intros t Hoff Hdom; [reflexivity|].
  cbn in Hdom. apply andb_prop in Hdom. destruct Hdom as [Hi Hdom].
  cbn [fold_left].
  assert (Hstep : step token sessionId t i = t).
  { destruct t as [h subs]. cbn [hook] in Hoff.
    destruct i; try discriminate Hi; cbn [step hook submitted];
      unfold handleKeyDown, handleKeyUp, handleMouseMove, handleMouseClick;
      now rewrite Hoff. }
  rewrite Hstep. now apply IH.
Qed.

Lemma stopped_hook_ignores_input_witness :
  fold_left (step (JS.def "tok-1"%string) (JS.def "sess-1"%string))
            [in_keydown 9000 Sample.text_key; in_mousemove 9500 Sample.pointer;
             in_click 9600 Sample.pointer; in_keyup 9700 Sample.text_key]
            (step (JS.def "tok-1"%string) (JS.def "sess-1"%string)
                  (run (JS.def "tok-1"%string) (JS.def "sess-1"%string) Sample2.inputs)
                  in_stop)
  = step (JS.def "tok-1"%string) (JS.def "sess-1"%string)
         (run (JS.def "tok-1"%string) (JS.def "sess-1"%string) Sample2.inputs)
         in_stop.
Proof.
  apply (stopped_hook_ignores_input (JS.def "tok-1"%string) (JS.def "sess-1"%string)).
  - reflexivity.
  - reflexivity.
Defined.

(** A response to a batch never acts on the session: whatever score and
    status it carries, batchesSent goes up by one, the score on display
    follows the response (a missing or null score changes nothing), and
    the modal, the toast, the timers and the session stay as they were.
    The response adds no alert; one that carries a score makes the
    Dashboard fetch the alerts, and the answer, if the request succeeds,
    replaces the alert list. *)
Theorem batch_response_never_acts :
  forall (now : Z) (result : BatchResult)
         (o : JS.outcome (list DashboardIO.BackendAlert))
         (h : Hook) (d : Dashboard.World),
    let p := DashboardIO.batchSettled now (JS.resolved result) (App.mkState h d) in
    let a := fst p in
    let d' := DashboardIO.answered (snd p) o (App.dash a) in
    batchesSent (stats (App.hook a)) = (batchesSent (stats h) + 1)%nat /\
    eventBuffer (App.hook a) = eventBuffer h /\
    snd p = match trust_score result with
            | JS.def _ => true
            | _ => false
            end /\
    Dashboard.trustScore d'
      = match trust_score result with
        | JS.def q => JS.def q
        | _ => Dashboard.trustScore d
        end /\
    Dashboard.showStepUp d' = Dashboard.showStepUp d /\
    Dashboard.alerts (App.dash a) = Dashboard.alerts d /\
    Dashboard.alerts d'
      = match trust_score result, o with
        | JS.def _, JS.resolved data => map DashboardIO.mapped data
        | _, _ => Dashboard.alerts d
        end /\
    Dashboard.toast d' = Dashboard.toast d /\
    Dashboard.timers d' = Dashboard.timers d /\
    Dashboard.logouts d' = Dashboard.logouts d /\
    Dashboard.auth d' = Dashboard.auth d.
Proof.
  intros now result o h d p a d'. subst d' a p. unfold DashboardIO.batchSettled.
  cbn [sendEventBatch_settled App.hook App.dash].
  assert (Hne : (S (updateTrustScore_sets h) =? updateTrustScore_sets h)%nat = false)
    by (apply Nat.eqb_neq; lia).
  destruct (trust_score result) as [| |q] eqn:Hs;
    cbn [updateTrustScore_sets console_write setUpdateTrustScore setStats];
    rewrite ?Nat.eqb_refl, ?Hne; cbn; try (repeat split; fail);
    destruct o; cbn; repeat split.
Qed.

End CaptureRunFacts.

(** ** The timer queue *)

Module QueueFacts.
Import Dashboard Queue.

Lemma enqueue_sorted x q :
  StronglySorted by_due q -> StronglySorted by_due (enqueue x q).
Proof.
  induction 1 as [|y q Hs IH Hall]; cbn.
  - repeat constructor.
  - destruct (due y <=? due x) eqn:Hle.
    + constructor; [assumption|].
      apply Forall_forall. intros z Hz.
      apply PolicyFacts.In_enqueue in Hz. destruct Hz as [->|Hz].
      * unfold by_due. now apply Z.leb_le.
      * revert z Hz. now apply Forall_forall.
    + apply Z.leb_gt in Hle.
      constructor; [now constructor|].
      constructor; [unfold by_due; lia|].
      eapply Forall_impl; [|exact Hall]. unfold by_due. intros z Hz. lia.
Qed.

(** In a sorted queue, the timers at the front that are due are all the
    timers that are due. *)
Lemma due_by_sorted t q :
  StronglySorted by_due q -> due_by t q = filter (fun x => due x <=? t) q.
Proof.
  induction 1 as [|y q Hs IH Hall]; cbn; [reflexivity|].
  destruct (due y <=? t) eqn:Hle; [now rewrite IH|].
  apply Z.leb_gt in Hle. symmetry.
  clear IH Hs. induction Hall as [|z q Hz _ IH]; cbn; [reflexivity|].
  unfold by_due in Hz.
  assert (Hgt : (due z <=? t) = false) by (apply Z.leb_gt; lia).
  now rewrite Hgt.
Qed.

Lemma filter_twice {A} (f g : A -> bool) l :
  filter f (filter g l) = filter (fun x => g x && f x) l.
Proof.
  induction l as [|x l IH]; cbn; [reflexivity|].
  destruct (g x); cbn; [destruct (f x)|]; now rewrite IH.
Qed.

Lemma filter_enqueue_out f x q :
  f x = false -> filter f (enqueue x q) = filter f q.
Proof.
  intros Hx. induction q as [|y q IH]; cbn.
  - now rewrite Hx.
  - destruct (due y <=? due x); cbn.
    + now rewrite IH.
    + now rewrite Hx.
Qed.

Lemma filter_enqueue_single f x q :
  f x = true -> filter f q = [] -> filter f (enqueue x q) = [x].
Proof.
  intros Hx. induction q as [|y q IH]; cbn; intros Hq.
  - now rewrite Hx.
  - destruct (f y) eqn:Hy; [discriminate|].
    destruct (due y <=? due x); cbn.
    + rewrite Hy. now apply IH.
    + now rewrite Hx, Hy, Hq.
Qed.

Lemma filter_none_weaker {A} (f g : A -> bool) l :
  (forall x, f x = true -> g x = true) -> filter g l = [] -> filter f l = [].
Proof.
  intros Hfg. induction l as [|x l IH]; cbn; [reflexivity|].
  destruct (g x) eqn:Hg; [discriminate|]. intros Hl.
  destruct (f x) eqn:Hf; [|now apply IH].
  apply Hfg in Hf. congruence.
Qed.

Lemma toast_fire t q : forall w,
  toast (fire t q w)
    = if existsb is_clear_toast (due_by t q) then None else toast w.
Proof.
  induction q as [|x q IH]; intros w; cbn; [reflexivity|].
  destruct (due x <=? t); cbn; [|reflexivity].
  rewrite IH. destruct x as [d [tok|]]; cbn; [reflexivity|].
  now destruct (existsb is_clear_toast (due_by t q)).
Qed.

Lemma alerts_fire t q : forall w, alerts (fire t q w) = alerts w.
Proof.
  induction q as [|x q IH]; intros w; cbn; [reflexivity|].
  destruct (due x <=? t); cbn; [|reflexivity].
  rewrite IH. now destruct (callback x).
Qed.

Lemma existsb_filter {A} (f : A -> bool) l :
  existsb f l = match filter f l with [] => false | _ => true end.
Proof.
  induction l as [|x l IH]; cbn; [reflexivity|]. now destruct (f x).
Qed.

(** Every queue a Dashboard can come to have is sorted by due time. *)
Lemma timers_sorted_step w e :
  StronglySorted by_due (timers w) -> StronglySorted by_due (timers (step w e)).
Proof.
  intros Hs.
  assert (Hap : forall r now ac rs sc st,
             StronglySorted by_due (timers (applyPolicy r now ac rs sc st w))).
  { intros. unfold applyPolicy.
    repeat match goal with |- context [if ?b then _ else _] => destruct b end;
      cbn; repeat apply enqueue_sorted; assumption. }
  assert (Hfire : forall t q w0,
             StronglySorted by_due q -> StronglySorted by_due (timers (fire t q w0))).
  { intros t q. induction q as [|x q IH]; intros w0 Hq; cbn; [constructor|].
    destruct (due x <=? t); cbn; [|assumption].
    apply IH. now inversion Hq. }
  destruct e; cbn.
  - unfold pollTick. destruct (poller w); [|assumption].
    destruct o; cbn; [apply Hap|assumption].
  - unfold onRefresh. destruct o; cbn; [apply Hap|assumption].
  - unfold onUpdateTrustScore. destruct (Capture.score u); try apply Hap; assumption.
  - now apply enqueue_sorted.
  - unfold onCancel. now destruct (showStepUp w).
  - now apply Hfire.
Qed.

Lemma timers_sorted_run es : forall w,
  StronglySorted by_due (timers w) -> StronglySorted by_due (timers (run es w)).
Proof.
  induction es as [|e es IH]; intros w H; cbn; [assumption|].
  apply IH, timers_sorted_step, H.
Qed.

Lemma timers_sorted_applyPolicy r now ac rs sc st w :
  StronglySorted by_due (timers w) ->
  StronglySorted by_due (timers (applyPolicy r now ac rs sc st w)).
Proof.
  intros Hs. unfold applyPolicy.
  repeat match goal with |- context [if ?b then _ else _] => destruct b end;
    cbn; repeat apply enqueue_sorted; assumption.
Qed.

(** The same with the answers to the Dashboard's requests. *)
Lemma timers_sorted_io_run es : forall w,
  StronglySorted by_due (timers w) ->
  StronglySorted by_due (timers (DashboardIO.run es w)).
Proof.
  induction es as [|e es IH]; intros w H; cbn; [assumption|].
  apply IH. destruct e as [e|o|o|r now o]; cbn.
  - now apply timers_sorted_step.
  - now destruct o.
  - now destruct o.
  - destruct o; cbn; [now apply timers_sorted_applyPolicy|assumption].
Qed.

End QueueFacts.

(** ** More on the policy reactor *)

Module ReactorFacts.
Import Dashboard Queue QueueFacts.

(** The grace delay is exact.  In any state a mounted Dashboard can
    reach, the answers to its requests included, if no teardown is
    pending, a terminate verdict applied at [now] leads to one invocation
    of logout, at [now + TERMINATE_DELAY_MS] and not before. *)
Theorem teardown_fires_after_grace :
  forall (a : Auth.Context) (es : list DashboardIO.Event) (r : Render) (now t : Z)
         (requireStepup : JS.value bool) (score : JS.value Q)
         (status : JS.value string),
    teardowns (DashboardIO.run es (mount a)) = [] ->
    let w := DashboardIO.run es (mount a) in
    let w' := applyPolicy r now (JS.def "terminate"%string) requireStepup
                          score status w in
    logouts (advance t w')
      = logouts w ++ (if now + TERMINATE_DELAY_MS <=? t
                      then [now + TERMINATE_DELAY_MS] else []).
Proof.
  intros a es r now t rs score status Hnone w w'.
  assert (Hs : StronglySorted by_due (timers w))
    by (apply timers_sorted_io_run; constructor).
  fold w in Hnone.
  set (T := mkTimer (now + TERMINATE_DELAY_MS) (cb_logout (r_token r))).
  set (C := mkTimer (now + TOAST_MS) cb_clear_toast).
  assert (Htm : timers w' = enqueue T (enqueue C (timers w))) by reflexivity.
  assert (Hlo : logouts w' = logouts w) by reflexivity.
  assert (Hs' : StronglySorted by_due (timers w'))
    by (rewrite Htm; now repeat apply enqueue_sorted).
  assert (Hdue : filter is_teardown (due_by t (timers w'))
                 = if now + TERMINATE_DELAY_MS <=? t then [T] else []).
  { rewrite (due_by_sorted t _ Hs'), filter_twice, Htm.
    set (f := fun x => (due x <=? t) && is_teardown x).
    assert (HC : f C = false) by (unfold f; cbn; apply andb_false_r).
    assert (Hq : filter f (timers w) = []).
    { apply filter_none_weaker with (g := is_teardown); [|exact Hnone].
      unfold f. intros x Hx. now apply andb_prop in Hx. }
    destruct (now + TERMINATE_DELAY_MS <=? t) eqn:Hle.
    - apply filter_enqueue_single.
      + unfold f. cbn. now rewrite Hle.
      + now rewrite filter_enqueue_out.
    - rewrite !filter_enqueue_out; auto.
      unfold f. cbn. now rewrite Hle. }
  unfold advance. rewrite PolicyFacts.logouts_fire.
  rewrite Hdue, Hlo.
  destruct (now + TERMINATE_DELAY_MS <=? t); reflexivity.
Qed.

Lemma teardown_fires_after_grace_witness :
  let w := DashboardIO.run Sample3.io_events (mount Sample.session) in
  let w' := applyPolicy (render w) 30000 (JS.def "terminate"%string) JS.undefined
                        (JS.def (10 # 1)) (JS.def "CRITICAL"%string) w in
  logouts (advance 33999 w')
    = logouts w ++ (if 30000 + TERMINATE_DELAY_MS <=? 33999
                    then [30000 + TERMINATE_DELAY_MS] else []).
Proof.
  apply (teardown_fires_after_grace Sample.session Sample3.io_events).
  reflexivity.
Defined.

(** The [require_stepup] flag outranks every action but terminate: with
    the flag set, a verdict whose action is monitor, continue, anything
    else or missing is handled exactly as a stepup verdict; a terminate
    verdict is handled the same with or without the flag. *)
Theorem stepup_flag_outranks_action :
  forall (r : Render) (now : Z) (action : JS.value string)
         (requireStepup : JS.value bool) (score : JS.value Q)
         (status : JS.value string) (w : World),
    JS.is_string action "terminate" = false ->
    JS.truthy_bool requireStepup = true ->
    applyPolicy r now action requireStepup score status w
      = applyPolicy r now (JS.def "stepup"%string) JS.undefined score status w /\
    forall flag,
      applyPolicy r now (JS.def "terminate"%string) flag score status w
        = applyPolicy r now (JS.def "terminate"%string) JS.undefined score status w.
Proof.
  intros r now action rs score status w Hterm Hflag. split.
  - unfold applyPolicy. rewrite Hterm, Hflag. cbn. now rewrite orb_true_r.
  - reflexivity.
Qed.

Lemma stepup_flag_outranks_action_witness :
  applyPolicy (render Sample.dashboard) 10000 (JS.def "monitor"%string)
              (JS.def true) (JS.def (55 # 1)) (JS.def "MONITOR"%string)
              Sample.dashboard
    = applyPolicy (render Sample.dashboard) 10000 (JS.def "stepup"%string)
                  JS.undefined (JS.def (55 # 1)) (JS.def "MONITOR"%string)
                  Sample.dashboard /\
  forall flag,
    applyPolicy (render Sample.dashboard) 10000 (JS.def "terminate"%string) flag
                (JS.def (55 # 1)) (JS.def "MONITOR"%string) Sample.dashboard
      = applyPolicy (render Sample.dashboard) 10000 (JS.def "terminate"%string)
                    JS.undefined (JS.def (55 # 1)) (JS.def "MONITOR"%string)
                    Sample.dashboard.
Proof.
  apply (stepup_flag_outranks_action (render Sample.dashboard) 10000
           (JS.def "monitor"%string) (JS.def true)).
  - reflexivity.
  - reflexivity.
Defined.

(** A polled snapshot that lacks the score or the status does not keep
    what is on display: the poller's closure supplies the values of the
    first render, so the score falls back to 100 and the status to OK,
    whatever the Dashboard showed before. *)
Theorem polled_gap_resets_display :
  forall (a : Auth.Context) (es : list Event) (now : Z) (data : TrustData),
    poller (run es (mount a)) <> None ->
    (forall q, trust_score data <> JS.def q) ->
    (forall s, status data <> JS.def s) ->
    let w' := pollTick now (JS.resolved data) (run es (mount a)) in
    trustScore w' = JS.def (100 # 1) /\
    trustStatus w' = JS.def "OK"%string /\
    TrustScoreCard.shown w' = Some 100.
Proof.
  intros a es now data Hp Hscore Hstatus w'. subst w'.
  destruct (PolicyFacts.poller_run a es (mount a)) as [H|H]; [now right| |].
  - contradiction.
  - assert (Hts : trustScore (pollTick now (JS.resolved data) (run es (mount a)))
                  = JS.def (100 # 1)).
    { unfold pollTick. rewrite H. cbn [mount poller refreshTrustScore].
      rewrite DisplayFacts.trustScore_applyPolicy. cbn.
      destruct (trust_score data) as [| |q]; try reflexivity.
      now destruct (Hscore q). }
    split; [exact Hts|]. split.
    + unfold pollTick. rewrite H. cbn [mount poller refreshTrustScore].
      unfold applyPolicy.
      destruct (status data) as [| |s]; [| |now destruct (Hstatus s)];
        repeat match goal with |- context [if ?b then _ else _] => destruct b end;
        reflexivity.
    + unfold TrustScoreCard.shown. now rewrite Hts.
Qed.

Lemma polled_gap_resets_display_witness :
  trustScore Sample.stepup_once = JS.def (30 # 1) /\
  let w' := pollTick 20000
              (JS.resolved (mkTrustData JS.undefined JS.undefined JS.undefined
                                        JS.undefined))
              (run [ev_poll 10000
                      (Sample.verdict (JS.def "stepup"%string) (30 # 1) "SUSPICIOUS")]
                   (mount Sample.session)) in
  trustScore w' = JS.def (100 # 1) /\
  trustStatus w' = JS.def "OK"%string /\
  TrustScoreCard.shown w' = Some 100.
Proof.
  split; [reflexivity|].
  apply (polled_gap_resets_display Sample.session
           [ev_poll 10000
              (Sample.verdict (JS.def "stepup"%string) (30 # 1) "SUSPICIOUS")]
           20000
           (mkTrustData JS.undefined JS.undefined JS.undefined JS.undefined)).
  - discriminate.
  - discriminate.
  - discriminate.
Defined.

Lemma alerts_applyPolicy r now action rs score status w :
  alerts (applyPolicy r now action rs score status w) = alerts w \/
  exists x, alerts (applyPolicy r now action rs score status w)
            = firstn 20 (x :: alerts w).
Proof.
  unfold applyPolicy.
  repeat match goal with |- context [if ?b then _ else _] => destruct b end;
    cbn; eauto.
Qed.

Lemma alerts_bound_step w e :
  DashboardIO.within_limit 20 e = true ->
  (List.length (alerts w) <= 20)%nat ->
  (List.length (alerts (DashboardIO.step w e)) <= 20)%nat.
Proof.
  intros He H.
  assert (Hap : forall r now ac rs sc st,
             (List.length (alerts (applyPolicy r now ac rs sc st w)) <= 20)%nat).
  { intros. destruct (alerts_applyPolicy r now ac rs sc st w) as [->|[x ->]];
      [assumption|]. rewrite length_firstn. apply Nat.le_min_l. }
  destruct e as [e|o|o|r now o]; cbn [DashboardIO.step].
  - destruct e; cbn [step].
    + unfold pollTick. destruct (poller w); [|assumption].
      destruct o; cbn; [apply Hap|assumption].
    + unfold onRefresh. destruct o; cbn; [apply Hap|assumption].
    + unfold onUpdateTrustScore. destruct (Capture.score u); try apply Hap; assumption.
    + assert (Hsu : exists x, alerts (handleStepUpSuccess now w)
                              = firstn 20 (x :: alerts w))
        by (eexists; reflexivity).
      destruct Hsu as [x ->]. rewrite length_firstn. apply Nat.le_min_l.
    + unfold onCancel. now destruct (showStepUp w).
    + unfold advance. now rewrite alerts_fire.
  - destruct o as [data|err]; cbn; [|assumption].
    cbn in He. rewrite length_map. now apply Nat.leb_le.
  - now destruct o.
  - destruct o; cbn; [apply Hap|assumption].
Qed.

(** The alert list is bounded as long as the server honours the limit of
    20 that fetchAlerts asks for: whatever verdicts, batch updates,
    step-up outcomes, timers and answers to its requests a mounted
    Dashboard goes through, if no answer to fetchAlerts holds more than
    20 alerts, the Dashboard never holds more than 20. *)
Theorem alerts_never_exceed_twenty :
  forall (a : Auth.Context) (es : list DashboardIO.Event),
    forallb (DashboardIO.within_limit 20) es = true ->
    (List.length (alerts (DashboardIO.run es (mount a))) <= 20)%nat.
Proof.
  intros a es.
  assert (H : forall w, forallb (DashboardIO.within_limit 20) es = true ->
                        (List.length (alerts w) <= 20)%nat ->
                        (List.length (alerts (DashboardIO.run es w)) <= 20)%nat).
  { induction es as [|e es IH]; intros w Hes Hw; cbn; [assumption|].
    cbn in Hes. apply andb_prop in Hes. destruct Hes as [He Hes].
    apply IH; [exact Hes|]. now apply alerts_bound_step. }
  intros Hes. apply H; [exact Hes|]. cbn. lia.
Qed.

Lemma alerts_never_exceed_twenty_witness :
  (List.length (alerts (DashboardIO.run Sample3.io_events (mount Sample.session)))
   <= 20)%nat.
Proof.
  apply (alerts_never_exceed_twenty Sample.session Sample3.io_events).
  reflexivity.
Defined.

(** After a successful step-up the card shows 100 and OK and the modal is
    closed, with the success alert on top; a teardown that was scheduled
    before is not cancelled, and the poller is left as it was.  The
    handler ends by fetching the alerts: the answer, if the request
    succeeds, replaces the alert list (the success alert included) by the
    server's, and changes nothing else. *)
Theorem stepup_success_keeps_teardowns :
  forall (now : Z) (o : JS.outcome (list DashboardIO.BackendAlert)) (w : World),
    let p := DashboardIO.handleStepUpSuccess now w in
    let w' := fst p in
    let w'' := DashboardIO.answered (snd p) o w' in
    snd p = true /\
    (TrustScoreCard.shown w' = Some 100 /\
     trustStatus w' = JS.def "OK"%string /\
     showStepUp w' = false /\
     alerts w'
       = firstn 20 (mkAlert now "✅ Step-up authentication successful" "info" now
                      :: alerts w) /\
     teardowns w' = teardowns w /\
     poller w' = poller w) /\
    (TrustScoreCard.shown w'' = Some 100 /\
     trustStatus w'' = JS.def "OK"%string /\
     showStepUp w'' = false /\
     alerts w''
       = match o with
         | JS.resolved data => map DashboardIO.mapped data
         | JS.rejected _ => alerts w'
         end /\
     teardowns w'' = teardowns w /\
     poller w'' = poller w /\
     toast w'' = toast w' /\
     auth w'' = auth w).
Proof.
  intros now o w p w' w''. subst w'' w' p.
  assert (Ht : teardowns (handleStepUpSuccess now w) = teardowns w)
    by (unfold teardowns; cbn; now apply filter_enqueue_out).
  split; [reflexivity|]. split.
  - repeat apply conj; try reflexivity. exact Ht.
  - destruct o as [data|err]; cbn [DashboardIO.handleStepUpSuccess fst snd
                                   DashboardIO.answered
                                   DashboardIO.fetchAlerts_settled];
      repeat apply conj; try reflexivity; exact Ht.
Qed.

(** A toast can be cut short by the timer of the toast before it: when a
    second toast is shown less than TOAST_MS after a first one, the first
    one's timer clears it TOAST_MS after the first toast, earlier than its
    own timer would. *)
Theorem earlier_toast_timer_clears_later_toast :
  forall (a : Auth.Context) (es : list Event) (now1 now2 : Z)
         (m1 k1 m2 k2 : string),
    now1 < now2 ->
    now2 < now1 + TOAST_MS ->
    let w2 := showToast now2 m2 k2 (showToast now1 m1 k1 (run es (mount a))) in
    toast w2 = Some (mkToast m2 k2) /\
    toast (advance (now1 + TOAST_MS) w2) = None /\
    now1 + TOAST_MS < now2 + TOAST_MS.
Proof.
  intros a es now1 now2 m1 k1 m2 k2 Hle Hlt w2.
  split; [reflexivity|]. split; [|lia].
  set (w := run es (mount a)).
  assert (Hs : StronglySorted by_due (timers w))
    by (apply timers_sorted_run; constructor).
  assert (Htm : timers w2
                = enqueue (mkTimer (now2 + TOAST_MS) cb_clear_toast)
                    (enqueue (mkTimer (now1 + TOAST_MS) cb_clear_toast) (timers w)))
    by reflexivity.
  assert (Hs2 : StronglySorted by_due (timers w2))
    by (rewrite Htm; now repeat apply enqueue_sorted).
  unfold advance. rewrite toast_fire, (due_by_sorted _ _ Hs2).
  assert (Hex : existsb is_clear_toast
                  (filter (fun x => due x <=? now1 + TOAST_MS) (timers w2)) = true).
  { apply existsb_exists.
    exists (mkTimer (now1 + TOAST_MS) cb_clear_toast). split; [|reflexivity].
    apply filter_In. split.
    - rewrite Htm. apply PolicyFacts.In_enqueue. right.
      apply PolicyFacts.In_enqueue. now left.
    - cbn. apply Z.leb_refl. }
  now rewrite Hex.
Qed.

Lemma earlier_toast_timer_clears_later_toast_witness :
  let w2 := showToast 2000 "Re-authentication required" "warning"
              (showToast 0 "Login successful!" "success" (run [] (mount Sample.session))) in
  toast w2 = Some (mkToast "Re-authentication required" "warning") /\
  toast (advance (0 + TOAST_MS) w2) = None /\
  0 + TOAST_MS < 2000 + TOAST_MS.
Proof.
  apply (earlier_toast_timer_clears_later_toast Sample.session [] 0 2000).
  - lia.
  - reflexivity.
Defined.

End ReactorFacts.

(** ** The step-up modal *)

Module StepUpFacts.
Import StepUpModal.

Lemma message_for_nonempty err : message_for err <> ""%string.
Proof.
  unfold message_for.
  destruct (String.eqb (JS.name err) "NotAllowedError"); [discriminate|].
  destruct (String.eqb (JS.name err) "SecurityError"); [discriminate|].
  destruct (String.eqb (JS.message err) "") eqn:He; [discriminate|].
  now apply String.eqb_neq.
Qed.

(** No run of the ceremony ends silently: when [handleAuth] is over the
    button is enabled again, and either onSuccess was called and no error
    is shown, or onSuccess was not called and a non-empty error message
    is shown. *)
Theorem ceremony_ends_in_success_or_message :
  forall env : Env,
    loading (modal (handleAuth env)) = false /\
    ((succeeded (handleAuth env) = true /\
      error (modal (handleAuth env)) = JS.null)
     \/
     (succeeded (handleAuth env) = false /\
      exists m, error (modal (handleAuth env)) = JS.def m /\ m <> ""%string)).
Proof.
  intros env. unfold handleAuth.
  assert (Hfail : forall e p v,
             loading (modal (failed e p v)) = false /\
             ((succeeded (failed e p v) = true /\
               error (modal (failed e p v)) = JS.null)
              \/
              (succeeded (failed e p v) = false /\
               exists m, error (modal (failed e p v)) = JS.def m /\ m <> ""%string))).
  { intros e p v. split; [reflexivity|]. right. split; [reflexivity|].
    eexists. split; [reflexivity|apply message_for_nonempty]. }
  destruct (stepupBegin env) as [options|e]; [|apply Hfail].
  destruct (publicKeyOptions options) as [e|pk]; [apply Hfail|].
  destruct (credentials_get env pk) as [[credential|]|e]; try apply Hfail.
  destruct (stepupComplete env (Api.serializeCredential credential)) as [u|e];
    [|apply Hfail].
  split; [reflexivity|]. left. split; reflexivity.
Qed.


(** The authenticator is prompted only with what decoded: whenever
    [navigator.credentials.get] is called, its challenge is the decoding
    of the challenge the server sent; a challenge that does not decode
    stops the ceremony before the authenticator. *)
Theorem prompt_carries_decoded_challenge :
  forall (env : Env) (pk : PublicKey),
    prompted (handleAuth env) = Some pk ->
    exists options,
      stepupBegin env = JS.resolved options /\
      Base64.base64ToArrayBuffer (challenge options) = Some (pk_challenge pk) /\
      pk_rest pk = o_rest options.
Proof.
  intros env pk. unfold handleAuth.
  destruct (stepupBegin env) as [options|e]; [|discriminate].
  destruct (publicKeyOptions options) as [e|pk'] eqn:Hpk; [discriminate|].
  assert (Hc : Base64.base64ToArrayBuffer (challenge options) = Some (pk_challenge pk')
               /\ pk_rest pk' = o_rest options).
  { unfold publicKeyOptions, decode in Hpk.
    destruct (Base64.base64ToArrayBuffer (challenge options)); [|discriminate].
    destruct (decode_all _); [discriminate|].
    injection Hpk as <-. split; reflexivity. }
  intros H.
  assert (Some pk' = Some pk) as [= ->].
  { destruct (credentials_get env pk') as [[credential|]|e]; try exact H.
    destruct (stepupComplete env (Api.serializeCredential credential)); exact H. }
  exists options. now destruct Hc.
Qed.

Lemma prompt_carries_decoded_challenge_witness :
  exists options,
    stepupBegin Sample2.happy = JS.resolved options /\
    Base64.base64ToArrayBuffer (challenge options)
      = Some [Byte.x00; Byte.xfb; Byte.xff; Byte.x3e] /\
    "rp"%string = o_rest options.
Proof.
  apply (prompt_carries_decoded_challenge Sample2.happy
           (mkPublicKey [Byte.x00; Byte.xfb; Byte.xff; Byte.x3e]
                        [([Byte.x01; Byte.xfb; Byte.xff], "public-key"%string)]
                        "rp")).
  reflexivity.
Defined.

(** Nothing is sent for verification that did not come from the
    authenticator: whenever [stepupComplete] is called, the authenticator
    was prompted before and what is sent is the serialization of the
    credential it returned. *)
Theorem verification_carries_authenticator_credential :
  forall (env : Env) (s : Api.SerializedCredential),
    verified (handleAuth env) = Some s ->
    exists pk credential,
      prompted (handleAuth env) = Some pk /\
      credentials_get env pk = JS.resolved (Some credential) /\
      s = Api.serializeCredential credential.
Proof.
  intros env s. unfold handleAuth.
  destruct (stepupBegin env) as [options|e]; [|discriminate].
  destruct (publicKeyOptions options) as [e|pk]; [discriminate|].
  destruct (credentials_get env pk) as [[credential|]|e] eqn:Hget;
    try discriminate.
  destruct (stepupComplete env (Api.serializeCredential credential));
    cbn; intros [= <-]; now exists pk, credential.
Qed.

Lemma verification_carries_authenticator_credential_witness :
  exists pk credential,
    prompted (handleAuth Sample2.happy) = Some pk /\
    credentials_get Sample2.happy pk = JS.resolved (Some credential) /\
    Api.serializeCredential Sample2.credential = Api.serializeCredential credential.
Proof.
  apply (verification_carries_authenticator_credential Sample2.happy
           (Api.serializeCredential Sample2.credential)).
  reflexivity.
Defined.

End StepUpFacts.

(** ** The script agent, the script controller and the card *)

Module ScriptFacts.

(** Logging out of the script client never delivers the events still in
    the buffer: auth.js clears the token before it stops the capture, so
    the last flush returns at its guard; the events stay behind, unsent,
    and the next start of the capture throws them away. *)
Theorem script_logout_drops_buffer :
  forall g : LegacyAgent.Globals,
    snd (LegacyAgent.logout g) = None /\
    LegacyAgent.eventBuffer (fst (LegacyAgent.logout g)) = LegacyAgent.eventBuffer g /\
    LegacyAgent.isCapturing (fst (LegacyAgent.logout g)) = false /\
    LegacyAgent.currentToken (fst (LegacyAgent.logout g)) = JS.null /\
    LegacyAgent.authToken (fst (LegacyAgent.logout g)) = None /\
    LegacyAgent.eventBuffer (LegacyAgent.startCapture (fst (LegacyAgent.logout g)))
      = [].
Proof.
  intros g. unfold LegacyAgent.logout, LegacyAgent.stopCapture.
  destruct (LegacyAgent.isCapturing g) eqn:Hc; cbn.
  - unfold LegacyAgent.sendEventBatch. cbn.
    destruct (LegacyAgent.eventBuffer g) as [|e l]; cbn;
      unfold LegacyAgent.startCapture; cbn; repeat split.
  - unfold LegacyAgent.startCapture. cbn. repeat split.
Qed.

(** The script controller adds an alert at every update whose status is
    SUSPICIOUS or CRITICAL, also when the status has not changed since
    the last update, and at no other update: the SUSPICIOUS warning or
    the CRITICAL danger message is put in front of the alerts of the
    panel, of which the ten newest are kept, in their order; at any other
    status the panel's alerts stay as they are. *)
Theorem script_alerts_per_update :
  forall (q : Q) (status : JS.value string) (p : LegacyDashboard.Page),
    LegacyDashboard.alertsContainer (LegacyDashboard.updateTrustScore q status p)
    = if JS.is_string status "SUSPICIOUS"
      then firstn 10
             (("Suspicious behavior detected. Step-up authentication may be required."%string,
               "warning"%string)
              :: LegacyDashboard.alertsContainer p)
      else if JS.is_string status "CRITICAL"
      then firstn 10
             (("Critical trust level. Session will be terminated."%string,
               "danger"%string)
              :: LegacyDashboard.alertsContainer p)
      else LegacyDashboard.alertsContainer p.
Proof.
  intros q status p. unfold LegacyDashboard.updateTrustScore.
  destruct status as [| |s]; cbn [JS.is_string]; try reflexivity.
  destruct (String.eqb s "MONITOR") eqn:Hm.
  - apply String.eqb_eq in Hm. subst s. reflexivity.
  - destruct (String.eqb s "SUSPICIOUS"); [reflexivity|].
    destruct (String.eqb s "CRITICAL"); reflexivity.
Qed.

Lemma lt_spec x c : TrustScoreCard.lt x c = true <-> (x < c)%Q.
Proof.
  unfold TrustScoreCard.lt. rewrite negb_true_iff.
  destruct (Qle_bool c x) eqn:H.
  - apply Qle_bool_iff in H. split; [discriminate|].
    intros Hlt. exfalso. now apply (Qlt_not_le x c).
  - split; [|reflexivity]. intros _. apply Qnot_le_lt. intros Hle.
    apply Qle_bool_iff in Hle. congruence.
Qed.

(** The card and the script controller colour a score alike, in three
    bands: danger below 40, warning from 40 to below 70, and success (no
    class in the script) from 70 on. *)
Theorem score_colour_bands :
  forall (q : Q) (status : JS.value string) (p : LegacyDashboard.Page),
    ((q < 40 # 1)%Q /\
     TrustScoreCard.getScoreClass q = "danger"%string /\
     LegacyDashboard.trustScoreCircle (LegacyDashboard.updateTrustScore q status p)
       = ["danger"%string])
    \/
    ((40 # 1 <= q)%Q /\ (q < 70 # 1)%Q /\
     TrustScoreCard.getScoreClass q = "warning"%string /\
     LegacyDashboard.trustScoreCircle (LegacyDashboard.updateTrustScore q status p)
       = ["warning"%string])
    \/
    ((70 # 1 <= q)%Q /\
     TrustScoreCard.getScoreClass q = "success"%string /\
     LegacyDashboard.trustScoreCircle (LegacyDashboard.updateTrustScore q status p)
       = []).
Proof.
  intros q status p.
  assert (Hcircle :
    LegacyDashboard.trustScoreCircle (LegacyDashboard.updateTrustScore q status p)
    = if TrustScoreCard.lt q (40 # 1) then ["danger"%string]
      else if TrustScoreCard.lt q (70 # 1) then ["warning"%string] else []).
  { unfold LegacyDashboard.updateTrustScore.
    repeat match goal with
           | |- context [if JS.is_string ?a ?b then _ else _] =>
             destruct (JS.is_string a b)
           end; reflexivity. }
  rewrite Hcircle. unfold TrustScoreCard.getScoreClass.
  destruct (TrustScoreCard.lt q (40 # 1)) eqn:H40.
  - left. apply lt_spec in H40. now repeat split.
  - right.
    assert (Hge40 : (40 # 1 <= q)%Q).
    { apply Qnot_lt_le. intros Hlt. apply lt_spec in Hlt. congruence. }
    destruct (TrustScoreCard.lt q (70 # 1)) eqn:H70.
    + left. apply lt_spec in H70. now repeat split.
    + right. repeat split.
      apply Qnot_lt_le. intros Hlt. apply lt_spec in Hlt. congruence.
Qed.

End ScriptFacts.

(** ** More on base64url *)

Module Base64MoreFacts.
Import Base64 Base64Facts.

Local Open Scope char_scope.

(** The encoding is the url form of the six-bit groups, without
    padding. *)
Lemma encoding_of_groups b :
  arrayBufferToBase64 b
    = replace_all "/" "_"
        (replace_all "+" "-" (map char_of (groups (map ascii_of_byte b)))).
Proof.
  unfold arrayBufferToBase64, btoa.
  set (s := map ascii_of_byte b).
  destruct (url_groups (groups s) (groups_small s)) as [H1 _].
  unfold replace_all, remove_all in *.
  rewrite !map_app, filter_app.
  fold (replace_all "+" "-" (padding s)).
  fold (replace_all "/" "_" (replace_all "+" "-" (padding s))).
  fold (remove_all "=" (replace_all "/" "_" (replace_all "+" "-" (padding s)))).
  now rewrite padding_removed, app_nil_r, H1.
Qed.

Lemma decoding_encoded_bytes b :
  base64ToArrayBuffer (arrayBufferToBase64 b) = Some b.
Proof.
  rewrite encoding_of_groups. unfold base64ToArrayBuffer.
  set (s := map ascii_of_byte b).
  destruct (url_groups (groups s) (groups_small s)) as [_ H2].
  rewrite H2, (atob_groups _ (groups_small s) (length_groups_mod4 s)), decode_groups.
  subst s. rewrite map_map. f_equal.
  rewrite <- (map_id b) at 2. apply map_ext. apply byte_of_ascii_of_byte.
Qed.

Lemma url_chars_checked :
  forallb
    (fun n =>
       let c := char_of n in
       Base64Url.url_safe
         (if Ascii.eqb (if Ascii.eqb c "+" then "-" else c) "/" then "_"
          else if Ascii.eqb c "+" then "-" else c))
    (map N.of_nat (seq 0 64)) = true.
Proof. vm_compute. reflexivity. Qed.

(** What [arrayBufferToBase64] returns is safe in a URL and in JSON: only
    letters, digits, ['-'] and ['_'], so no ['+'], no ['/'] and no
    padding. *)
Theorem encoding_is_url_safe :
  forall b : list byte,
    Forall (fun c => Base64Url.url_safe c = true) (arrayBufferToBase64 b).
Proof.
  intros b. rewrite encoding_of_groups. unfold replace_all.
  rewrite !map_map. apply Forall_forall. intros c Hc.
  apply in_map_iff in Hc. destruct Hc as (n & <- & Hn).
  assert (Hlt : (n < 64)%N).
  { pose proof (groups_small (map ascii_of_byte b)) as Hg.
    revert n Hn. now apply Forall_forall. }
  pose proof (proj1 (forallb_forall _ _) url_chars_checked n) as H.
  cbv beta zeta in H. apply H.
  rewrite <- (N2Nat.id n). apply in_map, in_seq. lia.
Qed.

Lemma length_groups s :
  List.length (groups s) = ((4 * List.length s + 2) / 3)%nat.
Proof.
  induction s as [|a|a b|a b c s IH] using by_threes; cbn [groups List.length];
    try reflexivity.
  rewrite IH.
  replace (4 * S (S (S (List.length s))) + 2)%nat
    with (4 * List.length s + 2 + 4 * 3)%nat by lia.
  rewrite Nat.div_add by discriminate. lia.
Qed.

(** The encoding of n bytes has ceil(4n/3) characters. *)
Theorem encoding_length :
  forall b : list byte,
    List.length (arrayBufferToBase64 b) = ((4 * List.length b + 2) / 3)%nat.
Proof.
  intros b. rewrite encoding_of_groups. unfold replace_all.
  now rewrite !length_map, length_groups, length_map.
Qed.

Lemma groups_no_whitespace g :
  Forall (fun n => (n < 64)%N) g ->
  filter (fun c => negb (is_whitespace c)) (map char_of g) = map char_of g.
Proof.
  induction 1 as [|n g Hn _ IH]; [reflexivity|]. cbn [map filter].
  destruct (alphabet_char n Hn) as (-> & _). cbn. now rewrite IH.
Qed.

Lemma groups_indices g :
  Forall (fun n => (n < 64)%N) g -> indices (map char_of g) = Some g.
Proof.
  induction 1 as [|n g Hn _ IH]; [reflexivity|]. cbn [map indices].
  destruct (alphabet_char n Hn) as (_ & _ & _ & _ & ->). now rewrite IH.
Qed.

Lemma strip_padding_padded g s :
  Forall (fun n => (n < 64)%N) g ->
  strip_padding (map char_of g ++ padding s) = map char_of g.
Proof.
  intros Hg. unfold strip_padding. rewrite rev_app_distr.
  assert (Hlast : match rev (map char_of g) with
                  | "=" :: _ => False
                  | _ => True
                  end).
  { rewrite <- map_rev.
    assert (Hr : Forall (fun n => (n < 64)%N) (rev g))
      by (apply Forall_forall; intros x Hx; apply in_rev in Hx;
          revert x Hx; now apply Forall_forall).
    destruct Hr as [|n r Hn _]; [exact I|]. cbn [map].
    destruct (alphabet_char n Hn) as (_ & He & _).
    destruct (char_of n) as [[] [] [] [] [] [] [] []]; try exact I.
    discriminate He. }
  unfold padding.
  destruct (Nat.modulo (List.length s) 3) as [|[|[|k]]]; cbn [rev app].
  - rewrite app_nil_r.
    destruct (rev (map char_of g)) as [|c r] eqn:Hrev; [reflexivity|].
    destruct c as [[] [] [] [] [] [] [] []]; try reflexivity. contradiction.
  - apply rev_involutive.
  - destruct (rev (map char_of g)) as [|c r] eqn:Hrev.
    + rewrite <- (rev_involutive (map char_of g)), Hrev. reflexivity.
    + destruct c as [[] [] [] [] [] [] [] []];
        try (rewrite <- Hrev; apply rev_involutive).
      contradiction.
  - rewrite app_nil_r.
    destruct (rev (map char_of g)) as [|c r] eqn:Hrev; [reflexivity|].
    destruct c as [[] [] [] [] [] [] [] []]; try reflexivity. contradiction.
Qed.

Lemma padding_shift a b c s : padding (a :: b :: c :: s) = padding s.
Proof.
  unfold padding. cbn [List.length].
  replace (S (S (S (List.length s)))) with (List.length s + 1 * 3)%nat by lia.
  now rewrite Nat.Div0.mod_add.
Qed.

Lemma length_btoa_mod4 s :
  (Nat.modulo (List.length (map char_of (groups s) ++ padding s)) 4 =? 0)%nat = true.
Proof.
  induction s as [|a|a b|a b c s IH] using by_threes; try reflexivity.
  rewrite padding_shift. cbn [groups map app List.length].
  replace (S (S (S (S (List.length (map char_of (groups s) ++ padding s))))))
    with (List.length (map char_of (groups s) ++ padding s) + 1 * 4)%nat by lia.
  now rewrite Nat.Div0.mod_add.
Qed.

Lemma padding_no_whitespace s :
  filter (fun c => negb (is_whitespace c)) (padding s) = padding s.
Proof.
  unfold padding.
  destruct (Nat.modulo (List.length s) 3) as [|[|[|k]]]; reflexivity.
Qed.

(** The platform's pair by itself: [atob] undoes [btoa]. *)
Lemma atob_btoa s : atob (btoa s) = Some s.
Proof.
  unfold atob, btoa.
  pose proof (groups_small s) as Hg.
  rewrite filter_app, (groups_no_whitespace _ Hg), padding_no_whitespace.
  rewrite length_btoa_mod4, (strip_padding_padded _ s Hg).
  rewrite length_map, length_groups_mod4, (groups_indices _ Hg).
  now rewrite decode_groups.
Qed.

Lemma standard_chars_kept s :
  replace_all "_" "/" (replace_all "-" "+" (btoa s)) = btoa s.
Proof.
  unfold btoa, replace_all. rewrite !map_app. f_equal.
  - rewrite map_map. rewrite <- (map_id (map char_of (groups s))) at 2.
    apply map_ext_in. intros c Hc.
    apply in_map_iff in Hc. destruct Hc as (n & <- & Hn).
    assert (Hlt : (n < 64)%N)
      by (revert n Hn; apply Forall_forall, groups_small).
    clear Hn. revert n Hlt.
    assert (Hall : forallb
              (fun n => Ascii.eqb
                 (if Ascii.eqb (if Ascii.eqb (char_of n) "-" then "+" else char_of n) "_"
                  then "/"
                  else if Ascii.eqb (char_of n) "-" then "+" else char_of n)
                 (char_of n))
              (map N.of_nat (seq 0 64)) = true)
      by (vm_compute; reflexivity).
    intros n Hlt. apply Ascii.eqb_eq.
    apply (proj1 (forallb_forall _ _) Hall n).
    rewrite <- (N2Nat.id n). apply in_map, in_seq. lia.
  - unfold padding.
    destruct (Nat.modulo (List.length s) 3) as [|[|[|k]]]; reflexivity.
Qed.

Lemma url_padded_back s :
  replace_all "_" "/"
    (replace_all "-" "+" (replace_all "/" "_" (replace_all "+" "-" (btoa s))))
  = btoa s.
Proof.
  unfold btoa.
  destruct (url_groups (groups s) (groups_small s)) as [_ H2].
  unfold replace_all in *. rewrite !map_app, H2. f_equal.
  unfold padding.
  destruct (Nat.modulo (List.length s) 3) as [|[|[|k]]]; reflexivity.
Qed.

(** The decoder is not tied to the form the encoder writes: it also
    decodes standard base64 with padding, and base64url with padding, of
    any byte sequence, to that byte sequence. *)
Theorem padded_forms_decode :
  forall b : list byte,
    base64ToArrayBuffer (btoa (map ascii_of_byte b)) = Some b /\
    base64ToArrayBuffer
      (replace_all "/" "_" (replace_all "+" "-" (btoa (map ascii_of_byte b))))
      = Some b.
Proof.
  intros b.
  assert (Hback : map byte_of_ascii (map ascii_of_byte b) = b).
  { rewrite map_map. rewrite <- (map_id b) at 2.
    apply map_ext. apply byte_of_ascii_of_byte. }
  unfold base64ToArrayBuffer. split.
  - now rewrite standard_chars_kept, atob_btoa, Hback.
  - now rewrite url_padded_back, atob_btoa, Hback.
Qed.

Lemma filter_all {A} (f : A -> bool) l : forallb f l = true -> filter f l = l.
Proof.
  induction l as [|x l IH]; cbn; [reflexivity|].
  intros H. apply andb_prop in H. destruct H as [-> H]. now rewrite IH.
Qed.

(** A string without whitespace whose length leaves a remainder of 1
    when divided by 4 is no base64: [base64ToArrayBuffer] throws on it
    (here: returns nothing). *)
Theorem bad_length_is_rejected :
  forall s : list ascii,
    forallb (fun c => negb (is_whitespace c)) s = true ->
    Nat.modulo (List.length s) 4 = 1%nat ->
    base64ToArrayBuffer s = None.
Proof.
  intros s Hws Hlen. unfold base64ToArrayBuffer, atob.
  set (s' := replace_all "_" "/" (replace_all "-" "+" s)).
  assert (Hws' : forallb (fun c => negb (is_whitespace c)) s' = true).
  { subst s'. unfold replace_all. rewrite map_map.
    apply forallb_forall. intros c Hc.
    apply in_map_iff in Hc. destruct Hc as (x & <- & Hx).
    pose proof (proj1 (forallb_forall _ _) Hws x Hx) as Hxw. cbv beta in Hxw.
    destruct (Ascii.eqb x "-") eqn:H1.
    - reflexivity.
    - destruct (Ascii.eqb x "_") eqn:H2; [reflexivity|exact Hxw]. }
  assert (Hlen' : List.length s' = List.length s)
    by (subst s'; unfold replace_all; now rewrite !length_map).
  rewrite (filter_all _ _ Hws'), Hlen', Hlen. cbn [Nat.eqb].
  rewrite Hlen', Hlen. reflexivity.
Qed.

Lemma bad_length_is_rejected_witness :
  base64ToArrayBuffer (list_ascii_of_string "APv_P") = None.
Proof.
  apply (bad_length_is_rejected (list_ascii_of_string "APv_P")).
  - reflexivity.
  - reflexivity.
Defined.

(** Serialization loses nothing: the id and the type are passed on as
    they are; the raw id and the client data are strings that decode back
    to their buffers; and each of the four optional buffers is
    [undefined] in the serialized credential when the credential lacks
    it, and otherwise a string that decodes back to it. *)
Theorem serialized_credential_decodes :
  forall credential : Api.PublicKeyCredential,
    let s := Api.serializeCredential credential in
    Api.s_id s = Api.id credential /\
    Api.s_type s = Api.type credential /\
    base64ToArrayBuffer (Api.s_rawId s) = Some (Api.rawId credential) /\
    base64ToArrayBuffer (Api.s_clientDataJSON (Api.s_response s))
      = Some (Api.clientDataJSON (Api.response credential)) /\
    Api.carries (Api.s_authenticatorData (Api.s_response s))
                (Api.authenticatorData (Api.response credential)) /\
    Api.carries (Api.s_signature (Api.s_response s))
                (Api.signature (Api.response credential)) /\
    Api.carries (Api.s_userHandle (Api.s_response s))
                (Api.userHandle (Api.response credential)) /\
    Api.carries (Api.s_attestationObject (Api.s_response s))
                (Api.attestationObject (Api.response credential)).
Proof.
  intros credential s. subst s.
  assert (Hopt : forall o, Api.carries (Api.optional o) o).
  { intros [b|]; cbn; [|reflexivity].
    eexists. split; [reflexivity|apply decoding_encoded_bytes]. }
  cbn. rewrite !decoding_encoded_bytes. repeat split; apply Hopt.
Qed.

End Base64MoreFacts.

(** ** Stopping the capture *)

Module CaptureStopFacts.
Import Capture.

(** Stopping a running capture with the session at hand is a last flush:
    whatever is in the buffer is handed over as one batch, the buffer is
    left empty and the capture off; stopping again does nothing. *)
Theorem stop_flushes_once :
  forall (token sessionId : JS.value string) (h : Hook),
    isCapturing h = true ->
    JS.truthy_string token = true ->
    JS.truthy_string sessionId = true ->
    let r := stopCapture token sessionId h in
    snd r = match eventBuffer h with
            | [] => None
            | _ => Some (mkSubmission token sessionId (eventBuffer h))
            end /\
    eventBuffer (fst r) = [] /\
    isCapturing (fst r) = false /\
    stats (fst r) = stats h /\
    stopCapture token sessionId (fst r) = (fst r, None).
Proof.
  intros token sessionId h Hc Ht Hs r. subst r.
  unfold stopCapture, sendEventBatch. rewrite Hc. cbn [negb].
  cbn [set_isCapturing eventBuffer]. rewrite Ht, Hs. cbn [negb orb].
  destruct (eventBuffer h) as [|e l] eqn:Hb; cbn; rewrite ?Hb; repeat split.
Qed.

Lemma stop_flushes_once_witness :
  let r := stopCapture (JS.def "tok-1"%string) (JS.def "sess-1"%string)
                       Sample.capturing in
  snd r = match eventBuffer Sample.capturing with
          | [] => None
          | _ => Some (mkSubmission (JS.def "tok-1"%string) (JS.def "sess-1"%string)
                                    (eventBuffer Sample.capturing))
          end /\
  eventBuffer (fst r) = [] /\
  isCapturing (fst r) = false /\
  stats (fst r) = stats Sample.capturing /\
  stopCapture (JS.def "tok-1"%string) (JS.def "sess-1"%string) (fst r) = (fst r, None).
Proof.
  apply (stop_flushes_once (JS.def "tok-1"%string) (JS.def "sess-1"%string)
                           Sample.capturing); reflexivity.
Defined.

End CaptureStopFacts.

(** ** Cancelling the step-up *)

Module CancelFacts.




End CancelFacts.
